(** * DpartTN: the residual/dilated detection network of [resnet_yolo.py]

    A shallow embedding of [src/tracking_main/resnet_yolo.py]: the layers
    the file instantiates, its three block classes, the stage builders,
    the [ResNet] constructor with its initialiser loop, the forward pass,
    and the pretrained-weight importer [load_my_state_dict]. *)

From Stdlib Require Import ZArith List Reals Lia.
From stdpp Require Import base option list strings gmap.

Local Open Scope Z_scope.

(** ** Exceptions and fallible results *)

Inductive error : Type :=
| KeyError (key : string)
| IndexError
| RuntimeError (msg : string)
| ValueError (msg : string)
| URLError (url : string).

Inductive result (A : Type) : Type :=
| Ok (a : A)
| Raise (e : error).
Arguments Ok {A} a.
Arguments Raise {A} e.

#[export] Instance result_ret : MRet result := fun _ a => Ok a.
#[export] Instance result_bind : MBind result := fun _ _ k r =>
  match r with
  | Ok a => k a
  | Raise e => Raise e
  end.

(** ** The torch layers the file instantiates

    Every parameter carries a description of how its data was last
    filled: by the layer's own constructor, by [normal_], or by
    [fill_]/[zero_]. *)

Inductive Init : Type :=
| DefaultInit
| Normal (mean std : R)
| Fill (v : R).

Record Conv2d : Type := mkConv2d {
  in_channels : Z;
  out_channels : Z;
  kernel_size : Z * Z;
  conv_stride : Z;
  conv_padding : Z;
  dilation : Z;
  conv_weight : Init
}.

Record BatchNorm2d : Type := mkBatchNorm2d {
  num_features : Z;
  bn_weight : Init;
  bn_bias : Init
}.

Record MaxPool2d : Type := mkMaxPool2d {
  pool_kernel : Z;
  pool_stride : Z;
  pool_padding : Z
}.

Record AvgPool2d : Type := mkAvgPool2d { avg_kernel : Z }.

(** [nn.Conv2d(i, o, kernel_size=k, stride=s, padding=p, dilation=d, bias=False)] *)
Definition nn_Conv2d (i o k s p d : Z) : Conv2d :=
  mkConv2d i o (k, k) s p d DefaultInit.

(** [nn.BatchNorm2d(c)] *)
Definition nn_BatchNorm2d (c : Z) : BatchNorm2d :=
  mkBatchNorm2d c DefaultInit DefaultInit.

(** A leaf of the module tree, as [isinstance] distinguishes them. *)
Inductive Layer : Type :=
| LConv (c : Conv2d)
| LBn (b : BatchNorm2d)
| LReLU
| LMaxPool (m : MaxPool2d)
| LAvgPool (a : AvgPool2d).

(** Number of scalars in the learnable parameters of a layer (no
    convolution of this file has a bias). *)
Definition conv_numel (c : Conv2d) : Z :=
  out_channels c * in_channels c * fst (kernel_size c) * snd (kernel_size c).

Definition bn_numel (b : BatchNorm2d) : Z := 2 * num_features b.

(** ** Tensor operations

    The forward recipes are written once, over any carrier [T] that
    implements the operations of [torch] they call. *)

Class TensorOps (T : Type) : Type := {
  conv2d : Conv2d -> T -> result T;
  batch_norm : BatchNorm2d -> T -> result T;
  relu : T -> T;
  max_pool2d : MaxPool2d -> T -> result T;
  avg_pool2d : AvgPool2d -> T -> result T;
  iadd : T -> T -> result T;
  sigmoid : T -> T;
  permute : list nat -> T -> result T
}.

(** *** The carrier of shapes *)

Definition shape : Type := list Z.

(** Output extent of a sliding window along one axis. *)
Definition window_out (n k s p d : Z) : Z :=
  (n + 2 * p - d * (k - 1) - 1) / s + 1.

Definition conv2d_shape (c : Conv2d) (x : shape) : result shape :=
  match x with
  | [n; ch; h; w] =>
      if negb (ch =? in_channels c) then
        Raise (RuntimeError "expected input to have in_channels channels")
      else if (h + 2 * conv_padding c <? dilation c * (fst (kernel_size c) - 1) + 1)
           || (w + 2 * conv_padding c <? dilation c * (snd (kernel_size c) - 1) + 1) then
        Raise (RuntimeError "kernel size can't be greater than actual input size")
      else
        Ok [n; out_channels c;
            window_out h (fst (kernel_size c)) (conv_stride c) (conv_padding c) (dilation c);
            window_out w (snd (kernel_size c)) (conv_stride c) (conv_padding c) (dilation c)]
  | _ => Raise (RuntimeError "expected 4D input")
  end.

(** A module is in training mode after construction, where batch
    normalisation refuses a single value per channel: a batch of one
    with one spatial position ([n * h * w = 1]). *)
Definition batch_norm_shape (b : BatchNorm2d) (x : shape) : result shape :=
  match x with
  | [n; ch; h; w] =>
      if negb (ch =? num_features b) then
        Raise (RuntimeError "running_mean should contain num_features elements")
      else if (h * w =? 1) && (n =? 1) then
        Raise (ValueError "expected more than 1 value per channel when training")
      else Ok x
  | _ => Raise (ValueError "expected 4D input")
  end.

Definition max_pool2d_shape (m : MaxPool2d) (x : shape) : result shape :=
  match x with
  | [n; ch; h; w] =>
      if pool_kernel m <? 2 * pool_padding m then
        Raise (RuntimeError "pad should be at most half of kernel size")
      else if (h + 2 * pool_padding m <? pool_kernel m)
           || (w + 2 * pool_padding m <? pool_kernel m) then
        Raise (RuntimeError "output size is too small")
      else
        Ok [n; ch;
            window_out h (pool_kernel m) (pool_stride m) (pool_padding m) 1;
            window_out w (pool_kernel m) (pool_stride m) (pool_padding m) 1]
  | _ => Raise (RuntimeError "expected 4D input")
  end.

Definition avg_pool2d_shape (a : AvgPool2d) (x : shape) : result shape :=
  match x with
  | [n; ch; h; w] =>
      if (h <? avg_kernel a) || (w <? avg_kernel a) then
        Raise (RuntimeError "output size is too small")
      else
        Ok [n; ch; window_out h (avg_kernel a) (avg_kernel a) 0 1;
                   window_out w (avg_kernel a) (avg_kernel a) 0 1]
  | _ => Raise (RuntimeError "expected 4D input")
  end.

(** [src] can be expanded to [dst]: aligned from the last axis, every
    extent of [src] is the extent of [dst] or 1, and [src] has no more
    axes than [dst]. *)
Definition same_extent (s d : Z) : bool := (s =? d) || (s =? 1).

Fixpoint expandable_rev (src dst : list Z) : bool :=
  match src, dst with
  | [], _ => true
  | _ :: _, [] => false
  | s :: src', d :: dst' => same_extent s d && expandable_rev src' dst'
  end.

Definition expandable (src dst : shape) : bool :=
  expandable_rev (rev src) (rev dst).

(** [out += residual]: the left operand keeps its shape. *)
Definition iadd_shape (out residual : shape) : result shape :=
  if expandable residual out then Ok out
  else Raise (RuntimeError "the size of tensor a must match the size of tensor b").

Definition permute_shape (dims : list nat) (x : shape) : result shape :=
  if bool_decide (Permutation dims (seq 0 (length x))) then
    Ok (map (fun i => nth i x 0) dims)
  else Raise (RuntimeError "permute: dims do not match the tensor").

#[export] Instance shape_ops : TensorOps shape := {|
  conv2d := conv2d_shape;
  batch_norm := batch_norm_shape;
  relu := fun x => x;
  max_pool2d := max_pool2d_shape;
  avg_pool2d := avg_pool2d_shape;
  iadd := iadd_shape;
  sigmoid := fun x => x;
  permute := permute_shape
|}.

(** ** [nn.Sequential] *)

(** The identity-adjustment pipelines of this file are all of the form
    convolution, then normalisation; an empty [nn.Sequential()] hands
    its input back. *)
Definition Sequential : Type := list Layer.

Definition apply_layer {T} `{TensorOps T} (l : Layer) (x : T) : result T :=
  match l with
  | LConv c => conv2d c x
  | LBn b => batch_norm b x
  | LReLU => Ok (relu x)
  | LMaxPool m => max_pool2d m x
  | LAvgPool a => avg_pool2d a x
  end.

Fixpoint seq_forward {T} `{TensorOps T} (s : Sequential) (x : T) : result T :=
  match s with
  | [] => Ok x
  | l :: s' => y ← apply_layer l x; seq_forward s' y
  end.

Definition layer_numel (l : Layer) : Z :=
  match l with
  | LConv c => conv_numel c
  | LBn b => bn_numel b
  | _ => 0
  end.

Definition seq_numel (s : Sequential) : Z :=
  fold_right (fun l acc => layer_numel l + acc) 0 s.

(** [conv3x3] *)
Definition conv3x3 (in_planes out_planes stride : Z) : Conv2d :=
  nn_Conv2d in_planes out_planes 3 stride 1 1.

(** ** [BasicBlock] and [Bottleneck] *)

(** The class handed to [ResNet] and [_make_layer] as [block]. *)
Inductive BlockClass : Type := BasicBlock | Bottleneck.

Definition expansion (block : BlockClass) : Z :=
  match block with
  | BasicBlock => 1
  | Bottleneck => 4
  end.

Record BasicBlockObj : Type := mkBasicBlock {
  bb_conv1 : Conv2d;
  bb_bn1 : BatchNorm2d;
  bb_conv2 : Conv2d;
  bb_bn2 : BatchNorm2d;
  bb_downsample : option Sequential;
  bb_stride : Z
}.

Record BottleneckObj : Type := mkBottleneck {
  bt_conv1 : Conv2d;
  bt_bn1 : BatchNorm2d;
  bt_conv2 : Conv2d;
  bt_bn2 : BatchNorm2d;
  bt_conv3 : Conv2d;
  bt_bn3 : BatchNorm2d;
  bt_downsample : option Sequential;
  bt_stride : Z
}.

Definition BasicBlock_init (inplanes planes stride : Z)
    (downsample : option Sequential) : BasicBlockObj :=
  mkBasicBlock
    (conv3x3 inplanes planes stride) (nn_BatchNorm2d planes)
    (conv3x3 planes planes 1) (nn_BatchNorm2d planes)
    downsample stride.

Definition Bottleneck_init (inplanes planes stride : Z)
    (downsample : option Sequential) : BottleneckObj :=
  mkBottleneck
    (nn_Conv2d inplanes planes 1 1 0 1) (nn_BatchNorm2d planes)
    (nn_Conv2d planes planes 3 stride 1 1) (nn_BatchNorm2d planes)
    (nn_Conv2d planes (planes * 4) 1 1 0 1) (nn_BatchNorm2d (planes * 4))
    downsample stride.

(** [residual = x], replaced by [self.downsample(x)] when there is one. *)
Definition residual_of {T} `{TensorOps T} (downsample : option Sequential)
    (x : T) : result T :=
  match downsample with
  | Some d => seq_forward d x
  | None => Ok x
  end.

Definition BasicBlock_forward {T} `{TensorOps T} (b : BasicBlockObj) (x : T) : result T :=
  out ← conv2d (bb_conv1 b) x;
  out ← batch_norm (bb_bn1 b) out;
  let out := relu out in
  out ← conv2d (bb_conv2 b) out;
  out ← batch_norm (bb_bn2 b) out;
  residual ← residual_of (bb_downsample b) x;
  out ← iadd out residual;
  Ok (relu out).

Definition Bottleneck_forward {T} `{TensorOps T} (b : BottleneckObj) (x : T) : result T :=
  out ← conv2d (bt_conv1 b) x;
  out ← batch_norm (bt_bn1 b) out;
  let out := relu out in
  out ← conv2d (bt_conv2 b) out;
  out ← batch_norm (bt_bn2 b) out;
  let out := relu out in
  out ← conv2d (bt_conv3 b) out;
  out ← batch_norm (bt_bn3 b) out;
  residual ← residual_of (bt_downsample b) x;
  out ← iadd out residual;
  Ok (relu out).

(** An instance of the class given as [block]. *)
Inductive Block : Type :=
| IsBasic (b : BasicBlockObj)
| IsBottleneck (b : BottleneckObj).

(** [block(inplanes, planes, stride, downsample)] *)
Definition block_init (block : BlockClass) (inplanes planes stride : Z)
    (downsample : option Sequential) : Block :=
  match block with
  | BasicBlock => IsBasic (BasicBlock_init inplanes planes stride downsample)
  | Bottleneck => IsBottleneck (Bottleneck_init inplanes planes stride downsample)
  end.

Definition block_forward {T} `{TensorOps T} (b : Block) (x : T) : result T :=
  match b with
  | IsBasic b => BasicBlock_forward b x
  | IsBottleneck b => Bottleneck_forward b x
  end.

Definition block_stride (b : Block) : Z :=
  match b with
  | IsBasic b => bb_stride b
  | IsBottleneck b => bt_stride b
  end.

Definition block_downsample (b : Block) : option Sequential :=
  match b with
  | IsBasic b => bb_downsample b
  | IsBottleneck b => bt_downsample b
  end.

(** Channel count a block's first convolution expects, and the one its
    last normalisation produces. *)
Definition block_in_channels (b : Block) : Z :=
  match b with
  | IsBasic b => in_channels (bb_conv1 b)
  | IsBottleneck b => in_channels (bt_conv1 b)
  end.

Definition block_out_channels (b : Block) : Z :=
  match b with
  | IsBasic b => num_features (bb_bn2 b)
  | IsBottleneck b => num_features (bt_bn3 b)
  end.

(** ** [DetNetBottleneck] *)

Record DetNetBottleneck : Type := mkDetNet {
  d_conv1 : Conv2d;
  d_bn1 : BatchNorm2d;
  d_conv2 : Conv2d;
  d_bn2 : BatchNorm2d;
  d_conv3 : Conv2d;
  d_bn3 : BatchNorm2d;
  d_downsample : Sequential
}.

Definition detnet_expansion : Z := 1.

Definition detnet_adjusts (in_planes planes stride : Z) (block_type : string) : bool :=
  negb (stride =? 1) || negb (in_planes =? detnet_expansion * planes)
  || bool_decide (block_type = "B"%string).

Definition DetNetBottleneck_init (in_planes planes stride : Z)
    (block_type : string) : DetNetBottleneck :=
  let downsample : Sequential := [] in
  let downsample :=
    if detnet_adjusts in_planes planes stride block_type then
      [LConv (nn_Conv2d in_planes (detnet_expansion * planes) 1 stride 0 1);
       LBn (nn_BatchNorm2d (detnet_expansion * planes))]
    else downsample in
  mkDetNet
    (nn_Conv2d in_planes planes 1 1 0 1) (nn_BatchNorm2d planes)
    (nn_Conv2d planes planes 3 stride 2 2) (nn_BatchNorm2d planes)
    (nn_Conv2d planes (detnet_expansion * planes) 1 1 0 1)
    (nn_BatchNorm2d (detnet_expansion * planes))
    downsample.

(** The three-convolution branch of [DetNetBottleneck.forward]. *)
Definition detnet_branch {T} `{TensorOps T} (b : DetNetBottleneck) (x : T) : result T :=
  out ← conv2d (d_conv1 b) x;
  out ← batch_norm (d_bn1 b) out;
  let out := relu out in
  out ← conv2d (d_conv2 b) out;
  out ← batch_norm (d_bn2 b) out;
  let out := relu out in
  out ← conv2d (d_conv3 b) out;
  batch_norm (d_bn3 b) out.

Definition detnet_forward {T} `{TensorOps T} (b : DetNetBottleneck) (x : T) : result T :=
  out ← detnet_branch b x;
  skip ← seq_forward (d_downsample b) x;
  out ← iadd out skip;
  Ok (relu out).

Definition detnet_in_channels (b : DetNetBottleneck) : Z := in_channels (d_conv1 b).

(** Parameters the identity-adjustment path adds to the block. *)
Definition detnet_extra_numel (b : DetNetBottleneck) : Z := seq_numel (d_downsample b).

(** ** [ResNet] *)

(** The modules of a network that hold data or geometry; [self.relu]
    has neither. *)
Record ResNet : Type := mkResNet {
  conv1 : Conv2d;
  bn1 : BatchNorm2d;
  maxpool : MaxPool2d;
  layer1 : list Block;
  layer2 : list Block;
  layer3 : list Block;
  layer4 : list Block;
  layer5 : list DetNetBottleneck;
  avgpool : AvgPool2d;
  conv_end : Conv2d;
  bn_end : BatchNorm2d
}.

(** [for i in range(1, blocks)]: the number of iterations. *)
Definition range1_len (blocks : Z) : nat := Z.to_nat (blocks - 1).

(** The loop [layers.append(block(self.inplanes, planes))], run [n] times. *)
Fixpoint append_blocks (block : BlockClass) (inplanes planes : Z) (n : nat)
    (layers : list Block) : list Block :=
  match n with
  | O => layers
  | S n' => append_blocks block inplanes planes n'
              (layers ++ [block_init block inplanes planes 1 None])
  end.

(** [_make_layer]; [self.inplanes] is read from the last argument and
    its new value is returned with the stage. *)
Definition _make_layer (block : BlockClass) (planes blocks stride : Z)
    (inplanes : Z) : list Block * Z :=
  let downsample :=
    if negb (stride =? 1) || negb (inplanes =? planes * expansion block) then
      Some [LConv (nn_Conv2d inplanes (planes * expansion block) 1 stride 0 1);
            LBn (nn_BatchNorm2d (planes * expansion block))]
    else None in
  let layers := [block_init block inplanes planes stride downsample] in
  let inplanes := planes * expansion block in
  let layers := append_blocks block inplanes planes (range1_len blocks) layers in
  (layers, inplanes).

Definition _make_detnet_layer (in_channels : Z) : list DetNetBottleneck :=
  [DetNetBottleneck_init in_channels 256 1 "B";
   DetNetBottleneck_init 256 256 1 "A";
   DetNetBottleneck_init 256 256 1 "A"].

(** [layers[i]] *)
Definition getitem (layers : list Z) (i : nat) : result Z :=
  match layers !! i with
  | Some v => Ok v
  | None => Raise IndexError
  end.

(** The constructor up to the initialiser loop. *)
Definition ResNet_build (block : BlockClass) (layers : list Z) : result ResNet :=
  let inplanes := 64 in
  let conv1 := nn_Conv2d 3 64 7 2 3 1 in
  let bn1 := nn_BatchNorm2d 64 in
  let maxpool := mkMaxPool2d 3 2 1 in
  n0 ← getitem layers 0;
  let '(layer1, inplanes) := _make_layer block 64 n0 1 inplanes in
  n1 ← getitem layers 1;
  let '(layer2, inplanes) := _make_layer block 128 n1 2 inplanes in
  n2 ← getitem layers 2;
  let '(layer3, inplanes) := _make_layer block 256 n2 2 inplanes in
  n3 ← getitem layers 3;
  let '(layer4, inplanes) := _make_layer block 512 n3 2 inplanes in
  n4 ← getitem layers 4;
  let layer5 := _make_detnet_layer n4 in
  let avgpool := mkAvgPool2d 2 in
  let conv_end := nn_Conv2d 256 10 3 1 1 1 in
  let bn_end := nn_BatchNorm2d 10 in
  Ok (mkResNet conv1 bn1 maxpool layer1 layer2 layer3 layer4 layer5
        avgpool conv_end bn_end).

(** *** [modules()] and the initialiser loop *)

Definition opt_seq (d : option Sequential) : list Layer :=
  match d with Some s => s | None => [] end.

Definition block_modules (b : Block) : list Layer :=
  match b with
  | IsBasic b =>
      [LConv (bb_conv1 b); LBn (bb_bn1 b); LReLU; LConv (bb_conv2 b); LBn (bb_bn2 b)]
      ++ opt_seq (bb_downsample b)
  | IsBottleneck b =>
      [LConv (bt_conv1 b); LBn (bt_bn1 b); LConv (bt_conv2 b); LBn (bt_bn2 b);
       LConv (bt_conv3 b); LBn (bt_bn3 b); LReLU]
      ++ opt_seq (bt_downsample b)
  end.

Definition detnet_modules (b : DetNetBottleneck) : list Layer :=
  [LConv (d_conv1 b); LBn (d_bn1 b); LConv (d_conv2 b); LBn (d_bn2 b);
   LConv (d_conv3 b); LBn (d_bn3 b)] ++ d_downsample b.

(** The leaves among what [self.modules()] yields, in registration
    order (the containers it also yields are neither convolutions nor
    normalisations). *)
Definition modules (net : ResNet) : list Layer :=
  [LConv (conv1 net); LBn (bn1 net); LReLU; LMaxPool (maxpool net)]
  ++ concat (map block_modules (layer1 net))
  ++ concat (map block_modules (layer2 net))
  ++ concat (map block_modules (layer3 net))
  ++ concat (map block_modules (layer4 net))
  ++ concat (map detnet_modules (layer5 net))
  ++ [LAvgPool (avgpool net); LConv (conv_end net); LBn (bn_end net)].

(** The body of the loop, on a convolution and on a normalisation. *)
Definition init_conv (m : Conv2d) : Conv2d :=
  let n := fst (kernel_size m) * snd (kernel_size m) * out_channels m in
  mkConv2d (in_channels m) (out_channels m) (kernel_size m) (conv_stride m)
    (conv_padding m) (dilation m) (Normal 0 (sqrt (2 / IZR n))).

Definition init_bn (m : BatchNorm2d) : BatchNorm2d :=
  mkBatchNorm2d (num_features m) (Fill 1) (Fill 0).

Definition init_module (m : Layer) : Layer :=
  match m with
  | LConv c => LConv (init_conv c)
  | LBn b => LBn (init_bn b)
  | _ => m
  end.

(** The loop mutates every module in place; on the module tree that is
    the body applied at every leaf. *)
Section Update.
Variable fc : Conv2d -> Conv2d.
Variable fb : BatchNorm2d -> BatchNorm2d.

Definition layer_update (m : Layer) : Layer :=
  match m with
  | LConv c => LConv (fc c)
  | LBn b => LBn (fb b)
  | _ => m
  end.

Definition seq_update (s : Sequential) : Sequential := map layer_update s.

Definition block_update (b : Block) : Block :=
  match b with
  | IsBasic b =>
      IsBasic (mkBasicBlock (fc (bb_conv1 b)) (fb (bb_bn1 b))
                 (fc (bb_conv2 b)) (fb (bb_bn2 b))
                 (option_map seq_update (bb_downsample b)) (bb_stride b))
  | IsBottleneck b =>
      IsBottleneck (mkBottleneck (fc (bt_conv1 b)) (fb (bt_bn1 b))
                      (fc (bt_conv2 b)) (fb (bt_bn2 b))
                      (fc (bt_conv3 b)) (fb (bt_bn3 b))
                      (option_map seq_update (bt_downsample b)) (bt_stride b))
  end.

Definition detnet_update (b : DetNetBottleneck) : DetNetBottleneck :=
  mkDetNet (fc (d_conv1 b)) (fb (d_bn1 b)) (fc (d_conv2 b)) (fb (d_bn2 b))
    (fc (d_conv3 b)) (fb (d_bn3 b)) (seq_update (d_downsample b)).

Definition ResNet_update (net : ResNet) : ResNet :=
  mkResNet (fc (conv1 net)) (fb (bn1 net)) (maxpool net)
    (map block_update (layer1 net)) (map block_update (layer2 net))
    (map block_update (layer3 net)) (map block_update (layer4 net))
    (map detnet_update (layer5 net))
    (avgpool net) (fc (conv_end net)) (fb (bn_end net)).
End Update.

(** [ResNet.__init__] *)
Definition ResNet_init (block : BlockClass) (layers : list Z) : result ResNet :=
  net ← ResNet_build block layers;
  Ok (ResNet_update init_conv init_bn net).

(** *** [ResNet.forward] *)

Fixpoint stage_forward {T} `{TensorOps T} (stage : list Block) (x : T) : result T :=
  match stage with
  | [] => Ok x
  | b :: rest => y ← block_forward b x; stage_forward rest y
  end.

Fixpoint head_forward {T} `{TensorOps T} (stage : list DetNetBottleneck) (x : T) : result T :=
  match stage with
  | [] => Ok x
  | b :: rest => y ← detnet_forward b x; head_forward rest y
  end.

Definition forward {T} `{TensorOps T} (net : ResNet) (x : T) : result T :=
  x ← conv2d (conv1 net) x;
  x ← batch_norm (bn1 net) x;
  let x := relu x in
  x ← max_pool2d (maxpool net) x;
  x ← stage_forward (layer1 net) x;
  x ← stage_forward (layer2 net) x;
  x ← stage_forward (layer3 net) x;
  x ← stage_forward (layer4 net) x;
  x ← head_forward (layer5 net) x;
  x ← conv2d (conv_end net) x;
  x ← batch_norm (bn_end net) x;
  let x := sigmoid x in
  permute [0; 2; 3; 1]%nat x.

(** *** The five depth configurations *)

Inductive Depth : Type := D18 | D34 | D50 | D101 | D152.

Definition depth_block (d : Depth) : BlockClass :=
  match d with
  | D18 | D34 => BasicBlock
  | D50 | D101 | D152 => Bottleneck
  end.

Definition depth_layers (d : Depth) : list Z :=
  match d with
  | D18 => [2; 2; 2; 2; 512]
  | D34 => [3; 4; 6; 3; 512]
  | D50 => [3; 4; 6; 3; 2048]
  | D101 => [3; 4; 23; 3; 2048]
  | D152 => [3; 8; 36; 3; 2048]
  end.

(** [resnet18(pretrained=False, use_gpu=False)] and its four siblings. *)
Definition resnet (d : Depth) : result ResNet :=
  ResNet_init (depth_block d) (depth_layers d).

Definition resnet18 : result ResNet := resnet D18.
Definition resnet34 : result ResNet := resnet D34.
Definition resnet50 : result ResNet := resnet D50.
Definition resnet101 : result ResNet := resnet D101.
Definition resnet152 : result ResNet := resnet D152.

(** The network's forward entry point on the shape of its input. *)
Definition net_forward_shape (d : Depth) (x : shape) : result shape :=
  net ← resnet d; forward net x.

(** [net.avgpool = a] *)
Definition set_avgpool (a : AvgPool2d) (net : ResNet) : ResNet :=
  mkResNet (conv1 net) (bn1 net) (maxpool net) (layer1 net) (layer2 net)
    (layer3 net) (layer4 net) (layer5 net) a (conv_end net) (bn_end net).

(** Channel counts at the two ends of a stage. *)
Definition stage_in_channels (stage : list Block) : option Z :=
  block_in_channels <$> head stage.

Definition stage_out_channels (stage : list Block) : option Z :=
  block_out_channels <$> last stage.

Definition head_in_channels (stage : list DetNetBottleneck) : option Z :=
  detnet_in_channels <$> head stage.

(** What one stage hands over is what the next one expects. *)
Definition chained (produced expected : option Z) : Prop :=
  exists c, produced = Some c /\ expected = Some c.

(** State of a layer's parameters after the initialiser loop. *)
Definition initialised (m : Layer) : Prop :=
  match m with
  | LConv c =>
      conv_weight c =
        Normal 0 (sqrt (2 / IZR (fst (kernel_size c) * snd (kernel_size c)
                                 * out_channels c)))
  | LBn b => bn_weight b = Fill 1 /\ bn_bias b = Fill 0
  | _ => True
  end.

(** ** The pretrained-weight importer *)

(** The registry of weight sources. *)
Definition model_urls : gmap string string :=
  list_to_map
    [("resnet18", "https://download.pytorch.org/models/resnet18-5c106cde.pth");
     ("resnet34", "https://download.pytorch.org/models/resnet34-333f7ec4.pth");
     ("resnet50", "https://download.pytorch.org/models/resnet50-19c8e357.pth");
     ("resnet101", "https://download.pytorch.org/models/resnet101-5d3b4d8f.pth");
     ("resnet152", "https://download.pytorch.org/models/resnet152-b121ed2d.pth")]%string.

Section Importer.
(** The scalars tensors hold; the importer only moves them. *)
Variable elt : Type.

Record Tensor : Type := mkTensor {
  t_shape : shape;
  t_data : list elt   (* row-major *)
}.

Definition numel (s : shape) : nat := Z.to_nat (fold_right Z.mul 1 s).

(** [l] cut in [k] consecutive pieces of [n] elements. *)
Fixpoint chunks (k n : nat) (l : list elt) : list (list elt) :=
  match k with
  | O => []
  | S k' => take n l :: chunks k' n (drop n l)
  end.

(** Data of a tensor of shape [src] read through the shape [dst] of
    the same rank: an axis of extent 1 is repeated. *)
Fixpoint expand_data (src dst : shape) (data : list elt) : list elt :=
  match src, dst with
  | s :: src', d :: dst' =>
      if s =? d then
        concat (map (expand_data src' dst') (chunks (Z.to_nat s) (numel src') data))
      else
        concat (repeat (expand_data src' dst' data) (Z.to_nat d))
  | _, _ => data
  end.

(** [src.expand(target)]: missing leading axes count as extent 1. *)
Definition expand (src : Tensor) (target : shape) : Tensor :=
  if decide (t_shape src = target) then src
  else
    let padded := repeat 1 (length target - length (t_shape src)) ++ t_shape src in
    mkTensor target (expand_data padded target (t_data src)).

(** [self.copy_(src)]: [src] must be broadcastable to [self]; [self]
    keeps its shape and receives the expanded data. *)
Definition copy_ (self src : Tensor) : result Tensor :=
  if expandable (t_shape src) (t_shape self) then Ok (expand src (t_shape self))
  else Raise (RuntimeError "the expanded size of the tensor must match the existing size").

(** The loop of [load_my_state_dict] over [param.items()].  The
    tensors of [model_dict] are those of the network, so what has
    been copied stays copied when a later entry raises. *)
Fixpoint copy_entries (items : list (string * Tensor))
    (model_dict : gmap string Tensor) : gmap string Tensor * result unit :=
  match items with
  | [] => (model_dict, Ok tt)
  | (name, param) :: rest =>
      match model_dict !! name with
      | None => copy_entries rest model_dict
      | Some t =>
          match copy_ t param with
          | Ok t' => copy_entries rest (<[name := t']> model_dict)
          | Raise e => (model_dict, Raise e)
          end
      end
  end.

(** [model_zoo.load_url]: the entries of the weight file at a URL, in
    the order of the file, each name once. *)
Variable load_url : string -> result (list (string * Tensor)).

(** [load_my_state_dict(net, parameter_url)], on the parameters of
    [net]; it returns them as the call leaves them. *)
Definition load_my_state_dict (net : gmap string Tensor) (parameter_url : string)
    : gmap string Tensor * result unit :=
  match model_urls !! parameter_url with
  | None => (net, Raise (KeyError parameter_url))
  | Some url =>
      match load_url url with
      | Raise e => (net, Raise e)
      | Ok param => copy_entries param net
      end
  end.
End Importer.

Arguments mkTensor {elt} t_shape t_data.
Arguments t_shape {elt} t.
Arguments t_data {elt} t.
Arguments expand {elt} src target.
Arguments copy_ {elt} self src.
Arguments copy_entries {elt} items model_dict.
Arguments load_my_state_dict {elt} load_url net parameter_url.

(** Two parameter stores with the same names and shapes. *)
Definition same_shapes {elt : Type} (net1 net2 : gmap string (Tensor elt)) : Prop :=
  forall name, t_shape <$> net1 !! name = t_shape <$> net2 !! name.

(** Names under which a weight source is registered. *)
Definition registered : list string :=
  ["resnet18"; "resnet34"; "resnet50"; "resnet101"; "resnet152"]%string.

(** A small weight file and three parameters of a constructed network
    (any configuration) to try the importer on: the scale and shift of
    [bn1], 64 values each, and the scale of [bn_end].  The file brings
    the scale of [bn1] as a single value, its shift in full, and an
    entry ([fc.bias]) the network has no parameter for. *)
Definition sample_file : list (string * Tensor Z) :=
  [("bn1.weight", mkTensor [1] [5]);
   ("bn1.bias", mkTensor [64] (repeat 7 64));
   ("fc.bias", mkTensor [1000] (repeat 0 1000))]%string.

Definition sample_net : gmap string (Tensor Z) :=
  list_to_map
    [("bn1.weight", mkTensor [64] (repeat 1 64));
     ("bn1.bias", mkTensor [64] (repeat 0 64));
     ("bn_end.weight", mkTensor [10] (repeat 1 10))]%string.

Definition sample_net_loaded : gmap string (Tensor Z) :=
  list_to_map
    [("bn1.weight", mkTensor [64] (repeat 5 64));
     ("bn1.bias", mkTensor [64] (repeat 7 64));
     ("bn_end.weight", mkTensor [10] (repeat 1 10))]%string.

(** A weight source that serves [sample_file] at every URL. *)
Definition sample_source (url : string) : result (list (string * Tensor Z)) :=
  Ok sample_file.

(** The input [test()] feeds the 18-layer network:
    [torch.rand(10, 4, 448, 448)]. *)
Definition test_img : shape := [10; 4; 448; 448].

(** ** Extents and the adjustment path of a stage *)

(** Extent left by a window of stride [stride] that covers every
    position once: [ceil (h / stride)] for [h >= 1]. *)
Definition reduced (stride h : Z) : Z := (h - 1) / stride + 1.

(** More than one value per channel: what batch normalisation asks of
    its input while the module is in training mode. *)
Definition several (n h w : Z) : Prop := h * w <> 1 \/ n <> 1.

(** The [downsample] that [_make_layer] hands to the first block. *)
Definition stage_downsample (block : BlockClass) (planes stride inplanes : Z)
    : option Sequential :=
  if negb (stride =? 1) || negb (inplanes =? planes * expansion block) then
    Some [LConv (nn_Conv2d inplanes (planes * expansion block) 1 stride 0 1);
          LBn (nn_BatchNorm2d (planes * expansion block))]
  else None.

(** [forward] up to the end of stage 4. *)
Definition backbone {T} `{TensorOps T} (net : ResNet) (x : T) : result T :=
  x ← conv2d (conv1 net) x;
  x ← batch_norm (bn1 net) x;
  let x := relu x in
  x ← max_pool2d (maxpool net) x;
  x ← stage_forward (layer1 net) x;
  x ← stage_forward (layer2 net) x;
  x ← stage_forward (layer3 net) x;
  stage_forward (layer4 net) x.

(** The module tree the constructor builds from [layers[0..4]], before
    the initialiser loop. *)
Definition ResNet_layout (block : BlockClass) (n0 n1 n2 n3 n4 : Z) : ResNet :=
  mkResNet (nn_Conv2d 3 64 7 2 3 1) (nn_BatchNorm2d 64) (mkMaxPool2d 3 2 1)
    (fst (_make_layer block 64 n0 1 64))
    (fst (_make_layer block 128 n1 2 (64 * expansion block)))
    (fst (_make_layer block 256 n2 2 (128 * expansion block)))
    (fst (_make_layer block 512 n3 2 (256 * expansion block)))
    (_make_detnet_layer n4)
    (mkAvgPool2d 2) (nn_Conv2d 256 10 3 1 1 1) (nn_BatchNorm2d 10).

(** [sample_file] with its first two entries in the other order, and
    [sample_net] once the scale of [bn1] alone has been imported. *)
Definition sample_file_swapped : list (string * Tensor Z) :=
  [("bn1.bias", mkTensor [64] (repeat 7 64));
   ("bn1.weight", mkTensor [1] [5]);
   ("fc.bias", mkTensor [1000] (repeat 0 1000))]%string.

Definition sample_net_scaled : gmap string (Tensor Z) :=
  list_to_map
    [("bn1.weight", mkTensor [64] (repeat 5 64));
     ("bn1.bias", mkTensor [64] (repeat 0 64));
     ("bn_end.weight", mkTensor [10] (repeat 1 10))]%string.

(** * Properties *)

(** ** Results *)

Lemma bind_Ok {A B : Type} (a : A) (k : A -> result B) : Ok a ≫= k = k a.
Proof. reflexivity. Qed.

Lemma bind_ok {A B : Type} (r : result A) (k : A -> result B) (b : B) :
  r ≫= k = Ok b -> exists a, r = Ok a /\ k a = Ok b.
Proof. destruct r as [a|e]; simpl; [eauto | discriminate]. Qed.


(** ** Construction *)

(** The test of [batch_norm_shape] is the product test of torch on
    extents, which are never negative. *)
Lemma single_value_test (n h w : Z) :
  0 <= n -> 0 <= h -> 0 <= w ->
  (h * w =? 1) && (n =? 1) = (n * h * w =? 1).
Proof.
  intros Hn Hh Hw.
  destruct (Z.eqb_spec (n * h * w) 1) as [E|E].
  - rewrite <- Z.mul_assoc in E.
    apply Z.eq_mul_1_nonneg in E as [-> ->]; [reflexivity | assumption].
  - destruct (Z.eqb_spec (h * w) 1) as [E1|E1]; [|reflexivity].
    destruct (Z.eqb_spec n 1) as [E2|E2]; [|reflexivity].
    exfalso. apply E. rewrite <- Z.mul_assoc, E1, E2. reflexivity.
Qed.

Lemma getitem_ok (layers : list Z) (i : nat) :
  (i < length layers)%nat -> exists v, getitem layers i = Ok v.
Proof.
  intros Hi. unfold getitem.
  destruct (lookup_lt_is_Some_2 layers i Hi) as [v ->]. eauto.
Qed.

Lemma ResNet_build_ok (block : BlockClass) (layers : list Z) :
  (5 <= length layers)%nat -> exists net, ResNet_build block layers = Ok net.
Proof.
  intros Hlen.
  do 5 (destruct layers as [|? layers]; [simpl in Hlen; lia|]).
  unfold ResNet_build. simpl.
  repeat match goal with
         | |- context [_make_layer ?b ?p ?n ?s ?i] =>
             destruct (_make_layer b p n s i)
         end.
  eauto.
Qed.

Lemma resnet_ok (d : Depth) : exists net, resnet d = Ok net.
Proof.
  unfold resnet, ResNet_init.
  destruct (ResNet_build_ok (depth_block d) (depth_layers d)) as [net ->].
  - destruct d; simpl; lia.
  - simpl. eauto.
Qed.

Lemma append_blocks_repeat (block : BlockClass) (inplanes planes : Z) (n : nat)
    (layers : list Block) :
  append_blocks block inplanes planes n layers =
  layers ++ repeat (block_init block inplanes planes 1 None) n.
Proof.
  revert layers. induction n as [|n IH]; intros layers; simpl.
  - now rewrite app_nil_r.
  - rewrite IH, <- app_assoc. reflexivity.
Qed.

Lemma block_init_stride block inplanes planes stride downsample :
  block_stride (block_init block inplanes planes stride downsample) = stride.
Proof. now destruct block. Qed.

Lemma block_init_downsample block inplanes planes stride downsample :
  block_downsample (block_init block inplanes planes stride downsample) = downsample.
Proof. now destruct block. Qed.

Lemma block_init_in_channels block inplanes planes stride downsample :
  block_in_channels (block_init block inplanes planes stride downsample) = inplanes.
Proof. now destruct block. Qed.

Lemma block_init_out_channels block inplanes planes stride downsample :
  block_out_channels (block_init block inplanes planes stride downsample)
  = planes * expansion block.
Proof. destruct block; simpl; lia. Qed.

Lemma make_layer_eq block planes blocks stride inplanes :
  _make_layer block planes blocks stride inplanes =
  (block_init block inplanes planes stride
     (if negb (stride =? 1) || negb (inplanes =? planes * expansion block)
      then Some [LConv (nn_Conv2d inplanes (planes * expansion block) 1 stride 0 1);
                 LBn (nn_BatchNorm2d (planes * expansion block))]
      else None)
   :: repeat (block_init block (planes * expansion block) planes 1 None)
        (range1_len blocks),
   planes * expansion block).
Proof. unfold _make_layer. now rewrite append_blocks_repeat. Qed.

Lemma adjust_test_spec (stride a b : Z) :
  negb (stride =? 1) || negb (a =? b) = true <-> stride <> 1 \/ a <> b.
Proof.
  rewrite orb_true_iff, !negb_true_iff, !Z.eqb_neq. reflexivity.
Qed.

(** ** The stage builder *)

(** C4, as stated, fails: asked for no block at all, [_make_layer]
    still appends the first one, so a count of 0 yields one block. *)
Lemma make_layer_count_zero :
  length (fst (_make_layer BasicBlock 64 0 1 64)) <> Z.to_nat 0.
Proof. vm_compute. discriminate. Qed.

(** C4, amended: [_make_layer] builds [max 1 count] blocks, kept in the
    order they are applied.  The first has the given stride, and has
    an identity-adjustment path (a 1x1 convolution of that stride, then
    a normalisation) exactly when the stride is not 1 or the incoming
    channel count is not [planes * expansion]; every later block has
    stride 1, no identity-adjustment path, and [planes * expansion]
    incoming channels. *)
Theorem make_layer_blocks (block : BlockClass) (planes blocks stride inplanes : Z) :
  exists first rest,
    fst (_make_layer block planes blocks stride inplanes) = first :: rest
    /\ Z.of_nat (length (first :: rest)) = Z.max 1 blocks
    /\ block_stride first = stride
    /\ block_in_channels first = inplanes
    /\ (is_Some (block_downsample first)
        <-> stride <> 1 \/ inplanes <> planes * expansion block)
    /\ (is_Some (block_downsample first) ->
        block_downsample first =
          Some [LConv (nn_Conv2d inplanes (planes * expansion block) 1 stride 0 1);
                LBn (nn_BatchNorm2d (planes * expansion block))])
    /\ Forall (fun b => block_stride b = 1
                        /\ block_downsample b = None
                        /\ block_in_channels b = planes * expansion block) rest
    /\ (forall (T : Type) (ops : TensorOps T) (x : T),
          stage_forward (first :: rest) x
          = (y ← block_forward first x; stage_forward rest y)).
Proof.
  rewrite make_layer_eq. simpl fst.
  eexists _, _. split; [reflexivity|].
  rewrite block_init_stride, block_init_in_channels, block_init_downsample.
  repeat split.
  - simpl length. rewrite repeat_length. unfold range1_len. lia.
  - intros [s Hs]. apply adjust_test_spec.
    destruct (negb _ || negb _); [reflexivity | discriminate].
  - intros Hadj. apply adjust_test_spec in Hadj. rewrite Hadj. eauto.
  - intros [s Hs].
    destruct (negb _ || negb _); [reflexivity | discriminate].
  - apply Forall_forall. intros b Hb.
    apply list_elem_of_In, repeat_spec in Hb. subst b.
    now rewrite block_init_stride, block_init_downsample, block_init_in_channels.
Qed.

(** ** The dilated detection block *)

Lemma detnet_adjusts_spec (in_planes planes stride : Z) (block_type : string) :
  detnet_adjusts in_planes planes stride block_type = true
  <-> stride <> 1 \/ in_planes <> detnet_expansion * planes \/ block_type = "B"%string.
Proof.
  unfold detnet_adjusts.
  rewrite !orb_true_iff, !negb_true_iff, !Z.eqb_neq, bool_decide_eq_true.
  tauto.
Qed.

(** C5: the identity-adjustment path of a [DetNetBottleneck] is always
    there (an [nn.Sequential], never [None]).  It is a 1x1 convolution
    followed by a normalisation exactly when the stride is not 1, or
    the incoming channels differ from [expansion * planes], or the
    block type is "B"; otherwise it is the empty pipeline, which has no
    parameters and hands its input back.  Either way its result is
    added to the three-convolution branch before the last activation. *)
Theorem detnet_identity_path (in_planes planes stride : Z) (block_type : string) :
  let b := DetNetBottleneck_init in_planes planes stride block_type in
  let conv := nn_Conv2d in_planes (detnet_expansion * planes) 1 stride 0 1 in
  let norm := nn_BatchNorm2d (detnet_expansion * planes) in
  (d_downsample b = [LConv conv; LBn norm]
   <-> stride <> 1 \/ in_planes <> detnet_expansion * planes
       \/ block_type = "B"%string)
  /\ (d_downsample b = [] \/ d_downsample b = [LConv conv; LBn norm])
  /\ (d_downsample b = [] -> detnet_extra_numel b = 0)
  /\ forall (T : Type) (ops : TensorOps T) (x : T),
       (d_downsample b = [] ->
        detnet_forward b x
        = (out ← detnet_branch b x; out ← iadd out x; Ok (relu out)))
       /\ (d_downsample b = [LConv conv; LBn norm] ->
           detnet_forward b x
           = (out ← detnet_branch b x;
              skip ← (y ← conv2d conv x; batch_norm norm y);
              out ← iadd out skip; Ok (relu out))).
Proof.
  intros b conv norm.
  assert (Hd : d_downsample b
               = if detnet_adjusts in_planes planes stride block_type
                 then [LConv conv; LBn norm] else []) by reflexivity.
  pose proof (detnet_adjusts_spec in_planes planes stride block_type) as Hspec.
  destruct (detnet_adjusts in_planes planes stride block_type).
  - split; [split; [intros _; now apply Hspec | now intros _]|].
    split; [now right|].
    split; [intros H; rewrite Hd in H; discriminate|].
    intros T ops x. split; [intros H; rewrite Hd in H; discriminate|].
    intros _. unfold detnet_forward. rewrite Hd. simpl.
    destruct (detnet_branch b x) as [out|e]; simpl; [|reflexivity].
    destruct (conv2d conv x) as [y|e]; simpl; [|reflexivity].
    destruct (batch_norm norm y); reflexivity.
  - split.
    { split; [intros H; rewrite Hd in H; discriminate|].
      intros H. apply Hspec in H. discriminate. }
    split; [now left|].
    split; [intros _; unfold detnet_extra_numel; now rewrite Hd|].
    intros T ops x. split; [|intros H; rewrite Hd in H; discriminate].
    intros _. unfold detnet_forward. rewrite Hd. reflexivity.
Qed.

(** ** The initialiser loop *)

Section UpdateFacts.
Variable fc : Conv2d -> Conv2d.
Variable fb : BatchNorm2d -> BatchNorm2d.

Lemma block_modules_update (b : Block) :
  block_modules (block_update fc fb b) = map (layer_update fc fb) (block_modules b).
Proof.
  destruct b as [b|b]; simpl; repeat f_equal.
  - now destruct (bb_downsample b).
  - now destruct (bt_downsample b).
Qed.

Lemma detnet_modules_update (b : DetNetBottleneck) :
  detnet_modules (detnet_update fc fb b) = map (layer_update fc fb) (detnet_modules b).
Proof. reflexivity. Qed.

Lemma concat_modules_update {A : Type} (g : A -> list Layer) (u : A -> A) (l : list A) :
  (forall a, g (u a) = map (layer_update fc fb) (g a)) ->
  concat (map g (map u l)) = map (layer_update fc fb) (concat (map g l)).
Proof.
  intros Hg. induction l as [|a l IH]; simpl; [reflexivity|].
  now rewrite map_app, Hg, IH.
Qed.

(** Every module the loop visits is replaced by its updated self. *)
Lemma modules_update (net : ResNet) :
  modules (ResNet_update fc fb net) = map (layer_update fc fb) (modules net).
Proof.
  unfold modules, ResNet_update. simpl.
  rewrite !map_app. simpl.
  rewrite !(concat_modules_update block_modules (block_update fc fb))
    by apply block_modules_update.
  rewrite (concat_modules_update detnet_modules (detnet_update fc fb))
    by apply detnet_modules_update.
  reflexivity.
Qed.
End UpdateFacts.

Lemma init_module_update (m : Layer) : layer_update init_conv init_bn m = init_module m.
Proof. now destruct m. Qed.

Lemma init_module_initialised (m : Layer) : initialised (init_module m).
Proof. destruct m; simpl; auto. Qed.

Lemma ResNet_init_initialised (block : BlockClass) (layers : list Z) (net : ResNet) :
  ResNet_init block layers = Ok net -> Forall initialised (modules net).
Proof.
  unfold ResNet_init. intros H.
  apply bind_ok in H as (net0 & _ & H). injection H as <-.
  rewrite modules_update. apply Forall_forall. intros m Hm.
  apply list_elem_of_In, in_map_iff in Hm as (m0 & <- & _).
  rewrite init_module_update. apply init_module_initialised.
Qed.

(** C6: right after construction, in each of the five configurations,
    every normalisation layer has scale filled with 1 and shift filled
    with 0, and the weight of every convolution layer was drawn by
    [normal_] with mean 0 and standard deviation
    [sqrt (2 / (kernel_height * kernel_width * out_channels))]. *)
Theorem constructed_parameters_initialised (d : Depth) :
  exists net, resnet d = Ok net /\ Forall initialised (modules net).
Proof.
  destruct (resnet_ok d) as [net Hnet]. exists net. split; [assumption|].
  exact (ResNet_init_initialised _ _ _ Hnet).
Qed.

(** ** The forward pass *)

Lemma same_extent_refl (n : Z) : same_extent n n = true.
Proof. unfold same_extent. now rewrite Z.eqb_refl. Qed.

(** Evaluation of one block for a batch size left open: the one test
    that looks at the batch axis is the one of [iadd]. *)
Ltac run_block :=
  lazy -[same_extent]; rewrite ?same_extent_refl; reflexivity.

Lemma stage_forward_cons_repeat {T : Type} `{TensorOps T}
    (b0 b : Block) (n : nat) (x y : T) :
  block_forward b0 x = Ok y -> block_forward b y = Ok y ->
  stage_forward (b0 :: repeat b n) x = Ok y.
Proof.
  intros H0 Hb. simpl. rewrite H0. simpl.
  induction n as [|n IH]; simpl; [reflexivity|].
  rewrite Hb. exact IH.
Qed.

Lemma ResNet_build_eq (block : BlockClass) (n0 n1 n2 n3 n4 : Z) (more : list Z) :
  ResNet_build block (n0 :: n1 :: n2 :: n3 :: n4 :: more) =
  Ok (mkResNet (nn_Conv2d 3 64 7 2 3 1) (nn_BatchNorm2d 64) (mkMaxPool2d 3 2 1)
        (fst (_make_layer block 64 n0 1 64))
        (fst (_make_layer block 128 n1 2 (64 * expansion block)))
        (fst (_make_layer block 256 n2 2 (128 * expansion block)))
        (fst (_make_layer block 512 n3 2 (256 * expansion block)))
        (_make_detnet_layer n4)
        (mkAvgPool2d 2) (nn_Conv2d 256 10 3 1 1 1) (nn_BatchNorm2d 10)).
Proof. reflexivity. Qed.

(** A stage of the constructed network, on the shape it receives. *)
Lemma stage_shape (block : BlockClass) (planes blocks stride inplanes h h' N : Z) :
  (planes, stride, inplanes, h, h') ∈
    [(64, 1, 64, 112, 112);
     (128, 2, 64 * expansion block, 112, 56);
     (256, 2, 128 * expansion block, 56, 28);
     (512, 2, 256 * expansion block, 28, 14)] ->
  stage_forward
    (map (block_update init_conv init_bn)
       (fst (_make_layer block planes blocks stride inplanes)))
    [N; inplanes; h; h]
  = Ok [N; planes * expansion block; h'; h'].
Proof.
  intros Hin. rewrite make_layer_eq. simpl fst. rewrite map_cons, map_repeat.
  repeat (apply elem_of_cons in Hin as [Hin|Hin];
          [injection Hin as -> -> -> -> ->;
           destruct block; apply stage_forward_cons_repeat; run_block|]).
  inversion Hin.
Qed.

Lemma head_shape (block : BlockClass) (N : Z) :
  head_forward
    (map (detnet_update init_conv init_bn)
       (_make_detnet_layer (512 * expansion block)))
    [N; 512 * expansion block; 14; 14]
  = Ok [N; 256; 14; 14].
Proof.
  unfold _make_detnet_layer. simpl map. unfold head_forward.
  assert (H1 : detnet_forward
                 (detnet_update init_conv init_bn
                    (DetNetBottleneck_init (512 * expansion block) 256 1 "B"))
                 [N; 512 * expansion block; 14; 14] = Ok [N; 256; 14; 14])
    by (destruct block; run_block).
  rewrite H1. simpl.
  assert (H2 : detnet_forward
                 (detnet_update init_conv init_bn
                    (DetNetBottleneck_init 256 256 1 "A"))
                 [N; 256; 14; 14] = Ok [N; 256; 14; 14]) by run_block.
  rewrite H2. simpl. rewrite H2. reflexivity.
Qed.

(** The forward pass of a network built from any four block counts,
    whose head is told the channel count stage 4 produces. *)
Lemma forward_shape_any_counts (block : BlockClass) (n0 n1 n2 n3 : Z)
    (more : list Z) (N : Z) :
  (net ← ResNet_init block (n0 :: n1 :: n2 :: n3 :: 512 * expansion block :: more);
   forward net [N; 3; 448; 448])
  = Ok [N; 14; 14; 10].
Proof.
  unfold ResNet_init. rewrite ResNet_build_eq, bind_Ok, bind_Ok.
  unfold forward.
  cbn [conv1 bn1 maxpool layer1 layer2 layer3 layer4 layer5 conv_end bn_end
       ResNet_update].
  assert (H1 : conv2d (init_conv (nn_Conv2d 3 64 7 2 3 1)) [N; 3; 448; 448]
               = Ok [N; 64; 224; 224]) by run_block.
  assert (H2 : batch_norm (init_bn (nn_BatchNorm2d 64)) [N; 64; 224; 224]
               = Ok [N; 64; 224; 224]) by run_block.
  assert (H3 : max_pool2d (mkMaxPool2d 3 2 1) (relu [N; 64; 224; 224])
               = Ok [N; 64; 112; 112]) by run_block.
  rewrite H1, bind_Ok, H2, bind_Ok, H3, bind_Ok.
  rewrite (stage_shape block 64 n0 1 64 112 112), bind_Ok by set_solver.
  rewrite (stage_shape block 128 n1 2 (64 * expansion block) 112 56), bind_Ok
    by set_solver.
  rewrite (stage_shape block 256 n2 2 (128 * expansion block) 56 28), bind_Ok
    by set_solver.
  rewrite (stage_shape block 512 n3 2 (256 * expansion block) 28 14), bind_Ok
    by set_solver.
  rewrite head_shape, bind_Ok.
  run_block.
Qed.

Lemma forward_three_channels (d : Depth) (N : Z) :
  net_forward_shape d [N; 3; 448; 448] = Ok [N; 14; 14; 10].
Proof.
  unfold net_forward_shape, resnet.
  destruct d; exact (forward_shape_any_counts _ _ _ _ _ [] N).
Qed.

(** C1: the stem convolution is built for 3 input channels, so in every
    configuration and for every batch size the forward pass raises on
    an input of shape (N, 4, 448, 448) at its first call. *)
Theorem forward_four_channels_raises (d : Depth) (N : Z) :
  exists net,
    resnet d = Ok net
    /\ in_channels (conv1 net) = 3
    /\ conv2d (conv1 net) [N; 4; 448; 448]
       = Raise (RuntimeError "expected input to have in_channels channels")
    /\ forward net [N; 4; 448; 448]
       = Raise (RuntimeError "expected input to have in_channels channels").
Proof.
  destruct (resnet_ok d) as [net Hnet]. exists net. split; [assumption|].
  unfold resnet, ResNet_init in Hnet.
  apply bind_ok in Hnet as (net0 & Hb & Hnet). injection Hnet as <-.
  unfold ResNet_build in Hb.
  repeat match type of Hb with
         | _ ≫= _ = Ok _ => apply bind_ok in Hb as (? & _ & Hb)
         | context [_make_layer ?b ?p ?n ?s ?i] =>
             destruct (_make_layer b p n s i)
         end.
  injection Hb as <-. repeat split.
Qed.

(** The call [net(img)] of [test()] is one such input. *)
Example test_forward_raises :
  net_forward_shape D18 test_img
  = Raise (RuntimeError "expected input to have in_channels channels").
Proof. vm_compute. reflexivity. Qed.

(** C2: on an input of shape (N, 4, 448, 448) no configuration returns
    a tensor, of shape (N, H', W', 10) or any other; the shape the
    claim describes is the one a 3-channel input yields, and it is the
    same in the five configurations. *)
Theorem forward_four_channels_no_output (d : Depth) (N : Z) :
  (forall s : shape, net_forward_shape d [N; 4; 448; 448] <> Ok s)
  /\ net_forward_shape d [N; 3; 448; 448] = Ok [N; 14; 14; 10].
Proof.
  split; [|apply forward_three_channels].
  intros s. destruct d; vm_compute; discriminate.
Qed.

(** C9: [forward] never calls the 2x2 average pooling the constructor
    builds (replacing it by any other leaves every forward pass
    unchanged), so a 448x448 input leaves the network as a 14x14 grid,
    448 / 32 on each side, in every configuration. *)
Theorem forward_grid_without_avgpool (d : Depth) (N : Z) :
  exists net,
    resnet d = Ok net
    /\ avgpool net = mkAvgPool2d 2
    /\ (forall (T : Type) (ops : TensorOps T) (a : AvgPool2d) (x : T),
          forward (set_avgpool a net) x = forward net x)
    /\ forward net [N; 3; 448; 448] = Ok [N; 448 / 32; 448 / 32; 10]
    /\ 448 / 32 = 14.
Proof.
  destruct (resnet_ok d) as [net Hnet]. exists net.
  pose proof (forward_three_channels d N) as Hf.
  unfold net_forward_shape in Hf. rewrite Hnet in Hf. simpl in Hf.
  split; [assumption|]. split; [|split; [reflexivity|split; [exact Hf|reflexivity]]].
  unfold resnet, ResNet_init in Hnet.
  apply bind_ok in Hnet as (net0 & Hb & Hnet). injection Hnet as <-.
  unfold ResNet_build in Hb.
  repeat match type of Hb with
         | _ ≫= _ = Ok _ => apply bind_ok in Hb as (? & _ & Hb)
         | context [_make_layer ?b ?p ?n ?s ?i] =>
             destruct (_make_layer b p n s i)
         end.
  injection Hb as <-. reflexivity.
Qed.

(** ** Channel counts between stages *)

Lemma last_cons_repeat {A : Type} (x y : A) (n : nat) :
  last (x :: repeat y n) = Some (match n with O => x | S _ => y end).
Proof.
  revert x. induction n as [|n IH]; intros x; [reflexivity|].
  change (last (y :: repeat y n) = Some y).
  rewrite IH. now destruct n.
Qed.

(** A built stage expects the channel count [_make_layer] found in
    [self.inplanes] and produces [planes * expansion], which is also
    what [_make_layer] leaves in [self.inplanes]. *)
Lemma make_layer_channels (block : BlockClass) (planes blocks stride inplanes : Z) :
  let stage := map (block_update init_conv init_bn)
                 (fst (_make_layer block planes blocks stride inplanes)) in
  stage_in_channels stage = Some inplanes
  /\ stage_out_channels stage = Some (planes * expansion block)
  /\ snd (_make_layer block planes blocks stride inplanes) = planes * expansion block.
Proof.
  rewrite make_layer_eq. simpl fst. simpl snd.
  rewrite map_cons, map_repeat. unfold stage_in_channels, stage_out_channels.
  rewrite last_cons_repeat. simpl head.
  split; [|split; [|reflexivity]].
  - destruct block; reflexivity.
  - destruct (range1_len blocks), block; simpl; f_equal; lia.
Qed.

Lemma stages_chained_any_counts (block : BlockClass) (n0 n1 n2 n3 n4 : Z)
    (more : list Z) :
  exists net,
    ResNet_init block (n0 :: n1 :: n2 :: n3 :: n4 :: more) = Ok net
    /\ chained (Some (out_channels (conv1 net))) (stage_in_channels (layer1 net))
    /\ chained (stage_out_channels (layer1 net)) (stage_in_channels (layer2 net))
    /\ chained (stage_out_channels (layer2 net)) (stage_in_channels (layer3 net))
    /\ chained (stage_out_channels (layer3 net)) (stage_in_channels (layer4 net))
    /\ stage_out_channels (layer4 net) = Some (512 * expansion block)
    /\ head_in_channels (layer5 net) = Some n4.
Proof.
  eexists. split.
  { unfold ResNet_init. rewrite ResNet_build_eq. reflexivity. }
  cbn [conv1 layer1 layer2 layer3 layer4 layer5 ResNet_update].
  destruct (make_layer_channels block 64 n0 1 64) as (I1 & O1 & _).
  destruct (make_layer_channels block 128 n1 2 (64 * expansion block)) as (I2 & O2 & _).
  destruct (make_layer_channels block 256 n2 2 (128 * expansion block)) as (I3 & O3 & _).
  destruct (make_layer_channels block 512 n3 2 (256 * expansion block)) as (I4 & O4 & _).
  cbv zeta in I1, O1, I2, O2, I3, O3, I4, O4.
  rewrite I1, O1, I2, O2, I3, O3, I4, O4.
  unfold chained. repeat split; eauto.
Qed.

(** C8: in each of the five configurations, what a stage produces is
    what the next one expects: stage 1 to 2, 2 to 3, 3 to 4, and
    stage 4 to the detection head. *)
Theorem stages_chained (d : Depth) :
  exists net,
    resnet d = Ok net
    /\ chained (stage_out_channels (layer1 net)) (stage_in_channels (layer2 net))
    /\ chained (stage_out_channels (layer2 net)) (stage_in_channels (layer3 net))
    /\ chained (stage_out_channels (layer3 net)) (stage_in_channels (layer4 net))
    /\ chained (stage_out_channels (layer4 net)) (head_in_channels (layer5 net)).
Proof.
  unfold resnet.
  destruct d; simpl depth_block; simpl depth_layers;
    match goal with
    | |- context [ResNet_init ?b (?n0 :: ?n1 :: ?n2 :: ?n3 :: ?n4 :: ?m)] =>
        destruct (stages_chained_any_counts b n0 n1 n2 n3 n4 m)
          as (net & Hnet & _ & H12 & H23 & H34 & Hout & Hin)
    end;
    exists net; (split; [exact Hnet|]); repeat split; try assumption;
    rewrite Hout, Hin; eexists; split; reflexivity.
Qed.

(** ** The weight importer *)

Section ImporterFacts.
Context {elt : Type}.
Implicit Types (t v dst : Tensor elt) (net : gmap string (Tensor elt)).
Implicit Types (items : list (string * Tensor elt)) (name : string).

Lemma expandable_rev_refl (s : list Z) : expandable_rev s s = true.
Proof. induction s as [|n s IH]; simpl; [reflexivity|]. now rewrite same_extent_refl. Qed.

Lemma expandable_refl (s : shape) : expandable s s = true.
Proof. apply expandable_rev_refl. Qed.

Lemma expand_same v (s : shape) : t_shape v = s -> expand v s = v.
Proof. intros H. unfold expand. now rewrite decide_True. Qed.

Lemma expand_shape v (s : shape) : t_shape (expand v s) = s.
Proof. unfold expand. destruct (decide (t_shape v = s)); [assumption | reflexivity]. Qed.

Lemma copy__ok t v t' : copy_ t v = Ok t' ->
  expandable (t_shape v) (t_shape t) = true /\ t' = expand v (t_shape t).
Proof.
  unfold copy_. destruct (expandable _ _); [|discriminate].
  intros [= <-]. auto.
Qed.

Lemma copy__raise t v e : copy_ t v = Raise e ->
  expandable (t_shape v) (t_shape t) = false /\ exists msg, e = RuntimeError msg.
Proof.
  unfold copy_. destruct (expandable _ _); [discriminate|].
  intros [= <-]. eauto.
Qed.

(** Only the shape of the destination matters to [copy_]. *)
Lemma copy__shape_only t1 t2 v : t_shape t1 = t_shape t2 -> copy_ t1 v = copy_ t2 v.
Proof. unfold copy_. now intros ->. Qed.

Lemma same_shapes_insert net1 net2 name t1 t2 :
  same_shapes net1 net2 -> t_shape t1 = t_shape t2 ->
  same_shapes (<[name := t1]> net1) (<[name := t2]> net2).
Proof.
  intros Hs Ht k. destruct (decide (name = k)) as [->|Hne].
  - rewrite !lookup_insert_eq. simpl. now rewrite Ht.
  - rewrite !lookup_insert_ne by assumption. apply Hs.
Qed.

Lemma same_shapes_overwrite net name t t' :
  net !! name = Some t -> t_shape t' = t_shape t ->
  same_shapes net (<[name := t']> net).
Proof.
  intros Hl Ht k. destruct (decide (name = k)) as [->|Hne].
  - rewrite lookup_insert_eq, Hl. simpl. now rewrite Ht.
  - now rewrite lookup_insert_ne.
Qed.

Lemma same_shapes_trans net1 net2 net3 :
  same_shapes net1 net2 -> same_shapes net2 net3 -> same_shapes net1 net3.
Proof. intros H12 H23 k. now rewrite H12. Qed.

(** The import, failed or not, leaves names and shapes as they were. *)
Lemma copy_entries_same_shapes items net :
  same_shapes net (fst (copy_entries items net)).
Proof.
  revert net. induction items as [|[n p] rest IH]; intros net; simpl.
  - now intros k.
  - destruct (net !! n) as [t|] eqn:Hn; [|apply IH].
    destruct (copy_ t p) as [t'|e] eqn:Hc; [|now intros k].
    apply copy__ok in Hc as [_ ->].
    eapply same_shapes_trans; [|apply IH].
    eapply same_shapes_overwrite; [eassumption | apply expand_shape].
Qed.

Lemma copy_entries_absent items net name :
  net !! name = None -> fst (copy_entries items net) !! name = None.
Proof.
  intros Hn. pose proof (copy_entries_same_shapes items net name) as H.
  rewrite Hn in H. simpl in H.
  destruct (fst (copy_entries items net) !! name); [discriminate | reflexivity].
Qed.

Lemma copy_entries_untouched items net name :
  name ∉ items.*1 -> fst (copy_entries items net) !! name = net !! name.
Proof.
  revert net. induction items as [|[n p] rest IH]; intros net Hni; simpl; [reflexivity|].
  rewrite fmap_cons in Hni. apply not_elem_of_cons in Hni as [Hne Hni]. simpl in Hne.
  destruct (net !! n) as [t|] eqn:Hn; [|now apply IH].
  destruct (copy_ t p) as [t'|e]; [|reflexivity].
  rewrite IH by assumption. now rewrite lookup_insert_ne.
Qed.

Lemma copy_entries_unmatched items net :
  (forall name v, (name, v) ∈ items -> net !! name = None) ->
  copy_entries items net = (net, Ok tt).
Proof.
  induction items as [|[n p] rest IH]; intros Hno; simpl; [reflexivity|].
  rewrite (Hno n p) by left. apply IH. intros name v Hin.
  apply (Hno name v). now right.
Qed.

Lemma copy_entries_entry items net name v dst :
  NoDup items.*1 -> (name, v) ∈ items -> net !! name = Some dst ->
  if expandable (t_shape v) (t_shape dst)
  then snd (copy_entries items net) = Ok tt ->
       fst (copy_entries items net) !! name = Some (expand v (t_shape dst))
  else (exists msg, snd (copy_entries items net) = Raise (RuntimeError msg))
       /\ fst (copy_entries items net) !! name = Some dst.
Proof.
  revert net. induction items as [|[n p] rest IH]; intros net Hnd Hin Hdst.
  { inversion Hin. }
  rewrite fmap_cons in Hnd. apply NoDup_cons in Hnd as [Hn_rest Hnd]. simpl in Hn_rest.
  apply elem_of_cons in Hin as [[= <- <-]|Hin]; simpl.
  - rewrite Hdst. unfold copy_.
    destruct (expandable (t_shape v) (t_shape dst)); simpl.
    + intros _. rewrite copy_entries_untouched by assumption.
      apply lookup_insert_eq.
    + split; [eauto | assumption].
  - assert (Hne : n <> name).
    { intros ->. apply Hn_rest. apply list_elem_of_fmap. now exists (name, v). }
    destruct (net !! n) as [t|] eqn:Hn; [|now apply IH].
    destruct (copy_ t p) as [t'|e] eqn:Hc.
    + apply IH; [assumption..|]. now rewrite lookup_insert_ne.
    + apply copy__raise in Hc as [_ [msg ->]]. simpl.
      destruct (expandable (t_shape v) (t_shape dst)); [discriminate|].
      split; [eauto | assumption].
Qed.

Lemma copy_entries_all_expandable items net :
  (forall name v dst, (name, v) ∈ items -> net !! name = Some dst ->
     expandable (t_shape v) (t_shape dst) = true) ->
  snd (copy_entries items net) = Ok tt.
Proof.
  revert net. induction items as [|[n p] rest IH]; intros net Hall; simpl; [reflexivity|].
  destruct (net !! n) as [t|] eqn:Hn.
  - unfold copy_. rewrite (Hall n p t) by (assumption || left).
    apply IH. intros name v dst Hin Hl.
    destruct (decide (n = name)) as [->|Hne].
    + rewrite lookup_insert_eq in Hl. injection Hl as <-.
      rewrite expand_shape. apply (Hall name v t); [now right | assumption].
    + rewrite lookup_insert_ne in Hl by assumption.
      apply (Hall name v dst); [now right | assumption].
  - apply IH. intros name v dst Hin. apply Hall. now right.
Qed.

(** A second pass over the same entries, started from a store of the
    same shapes, succeeds as the first did; at every name the two
    results agree, or neither pass has written there. *)
Lemma copy_entries_again items net1 net2 net1' :
  same_shapes net1 net2 ->
  copy_entries items net1 = (net1', Ok tt) ->
  exists net2',
    copy_entries items net2 = (net2', Ok tt)
    /\ forall name, net1' !! name = net2' !! name
                    \/ (net1' !! name = net1 !! name /\ net2' !! name = net2 !! name).
Proof.
  revert net1 net2. induction items as [|[n p] rest IH]; intros net1 net2 Hs H1; simpl in *.
  - injection H1 as <-. exists net2. split; [reflexivity|]. intros k. now right.
  - pose proof (Hs n) as Hn.
    destruct (net1 !! n) as [t1|] eqn:H1n, (net2 !! n) as [t2|] eqn:H2n;
      simpl in Hn; try discriminate.
    + injection Hn as Hn.
      rewrite <- (copy__shape_only t1 t2 p Hn).
      destruct (copy_ t1 p) as [t'|e]; [|discriminate].
      destruct (IH _ (<[n := t']> net2) (same_shapes_insert _ _ n t' t' Hs eq_refl) H1)
        as (net2' & H2 & Hagree).
      exists net2'. split; [assumption|]. intros k.
      destruct (Hagree k) as [Hk|[Hk1 Hk2]]; [now left|].
      destruct (decide (n = k)) as [->|Hne].
      * left. rewrite Hk1, Hk2, !lookup_insert_eq. reflexivity.
      * right. now rewrite Hk1, Hk2, !lookup_insert_ne.
    + now apply IH.
Qed.

Lemma copy_entries_idempotent items net net' :
  copy_entries items net = (net', Ok tt) ->
  copy_entries items net' = (net', Ok tt).
Proof.
  intros H1.
  pose proof (copy_entries_same_shapes items net) as Hs. rewrite H1 in Hs. simpl in Hs.
  destruct (copy_entries_again items net net' net' Hs H1) as (net2 & H2 & Hagree).
  rewrite H2. f_equal. apply map_eq. intros k.
  destruct (Hagree k) as [Hk|[_ Hk]]; congruence.
Qed.
End ImporterFacts.

(** C3, as stated, fails: a value whose shape differs from the
    parameter's but can be broadcast to it is written, expanded, and
    the import raises nothing. *)
Lemma import_writes_broadcast_value :
  (exists v dst,
     ("bn1.weight"%string, v) ∈ sample_file
     /\ sample_net !! "bn1.weight"%string = Some dst
     /\ t_shape v <> t_shape dst)
  /\ load_my_state_dict sample_source sample_net "resnet18"
     = (sample_net_loaded, Ok tt).
Proof.
  split.
  - exists (mkTensor [1] [5]), (mkTensor [64] (repeat 1 64)).
    split; [left|split; [reflexivity|discriminate]].
  - apply injective_projections; [apply map_eq; intros k|]; vm_compute; reflexivity.
Qed.

(** C3, amended: over the entries of a weight file (each name once),
    the import adds no parameter and touches none the file does not
    name; entries without a parameter of their name are skipped and
    never raise; a matching entry whose shape can be broadcast to the
    parameter's is written, expanded to that shape (as it is when the
    shapes are equal), if the import ends without error; a matching
    entry whose shape cannot be broadcast makes the import raise a
    [RuntimeError] and its parameter keeps its value; and nothing else
    makes the import raise. *)
Theorem import_entries_contract {elt : Type} (items : list (string * Tensor elt))
    (net : gmap string (Tensor elt)) :
  NoDup items.*1 ->
  let net' := fst (copy_entries items net) in
  let outcome := snd (copy_entries items net) in
  (forall name, net !! name = None -> net' !! name = None)
  /\ (forall name, name ∉ items.*1 -> net' !! name = net !! name)
  /\ ((forall name v, (name, v) ∈ items -> net !! name = None) ->
      net' = net /\ outcome = Ok tt)
  /\ (forall name v dst,
        (name, v) ∈ items -> net !! name = Some dst ->
        if expandable (t_shape v) (t_shape dst)
        then outcome = Ok tt -> net' !! name = Some (expand v (t_shape dst))
        else (exists msg, outcome = Raise (RuntimeError msg))
             /\ net' !! name = Some dst)
  /\ (forall name v dst,
        (name, v) ∈ items -> net !! name = Some dst -> t_shape v = t_shape dst ->
        outcome = Ok tt -> net' !! name = Some v)
  /\ ((forall name v dst,
         (name, v) ∈ items -> net !! name = Some dst ->
         expandable (t_shape v) (t_shape dst) = true) ->
      outcome = Ok tt).
Proof.
  intros Hnd net' outcome. subst net' outcome.
  split; [intros name; apply copy_entries_absent|].
  split; [intros name; apply copy_entries_untouched|].
  split; [intros Hno; now rewrite copy_entries_unmatched|].
  split; [intros name v dst; now apply copy_entries_entry|].
  split; [|apply copy_entries_all_expandable].
  intros name v dst Hin Hdst Hshape Hok.
  pose proof (copy_entries_entry items net name v dst Hnd Hin Hdst) as H.
  rewrite Hshape, expandable_refl in H. rewrite (H Hok).
  f_equal. now apply expand_same.
Qed.

(** The contract on [sample_file]: the shift of [bn1] arrives as sent. *)
Lemma import_entries_contract_witness :
  NoDup sample_file.*1
  /\ (snd (copy_entries sample_file sample_net) = Ok tt ->
      fst (copy_entries sample_file sample_net) !! "bn1.bias"%string
      = Some (mkTensor [64] (repeat 7 64))).
Proof.
  assert (Hnd : NoDup sample_file.*1).
  { apply (bool_decide_unpack _). vm_compute. exact I. }
  split; [exact Hnd|].
  destruct (import_entries_contract sample_file sample_net Hnd)
    as (_ & _ & _ & _ & Hsame & _).
  apply (Hsame "bn1.bias"%string (mkTensor [64] (repeat 7 64))
           (mkTensor [64] (repeat 0 64))).
  - right. left.
  - vm_compute. reflexivity.
  - reflexivity.
Defined.

(** C7: when importing a weight source succeeds, importing it once
    more leaves every parameter as the first import left it. *)
Theorem import_idempotent {elt : Type}
    (load_url : string -> result (list (string * Tensor elt)))
    (net net' : gmap string (Tensor elt)) (parameter_url : string) :
  load_my_state_dict load_url net parameter_url = (net', Ok tt) ->
  load_my_state_dict load_url net' parameter_url = (net', Ok tt).
Proof.
  unfold load_my_state_dict.
  destruct (model_urls !! parameter_url) as [url|]; [|discriminate].
  destruct (load_url url) as [param|e]; [|discriminate].
  apply copy_entries_idempotent.
Qed.

(** Importing [sample_file] into [sample_net], twice. *)
Lemma import_idempotent_witness :
  load_my_state_dict sample_source sample_net "resnet18" = (sample_net_loaded, Ok tt)
  /\ load_my_state_dict sample_source sample_net_loaded "resnet18"
     = (sample_net_loaded, Ok tt).
Proof.
  assert (H : load_my_state_dict sample_source sample_net "resnet18"
              = (sample_net_loaded, Ok tt)).
  { apply injective_projections; [apply map_eq; intros k|]; vm_compute; reflexivity. }
  split; [exact H|].
  exact (import_idempotent sample_source sample_net sample_net_loaded "resnet18" H).
Defined.

(** C10: asked for a source name that is not one of the five
    registered, the importer raises [KeyError] before it fetches
    anything or looks at the network, whose parameters are all as
    they were. *)
Theorem unknown_source_raises {elt : Type}
    (load_url : string -> result (list (string * Tensor elt)))
    (net : gmap string (Tensor elt)) (parameter_url : string) :
  parameter_url ∉ registered ->
  load_my_state_dict load_url net parameter_url = (net, Raise (KeyError parameter_url)).
Proof.
  intros Hnot. unfold load_my_state_dict.
  assert (Hl : model_urls !! parameter_url = None).
  { apply not_elem_of_list_to_map_1. exact Hnot. }
  now rewrite Hl.
Qed.

(** No weight source is registered as "vgg16". *)
Lemma unknown_source_raises_witness :
("vgg16"%string ∉ registered)
  /\ load_my_state_dict sample_source sample_net "vgg16"
     = (sample_net, Raise (KeyError "vgg16")).
Proof.
  assert (H : "vgg16"%string ∉ registered).
  { apply (bool_decide_unpack _). vm_compute. exact I. }
  split; [exact H|].
  exact (unknown_source_raises sample_source sample_net "vgg16" H).
Defined.

(** * Further properties of the code *)

(** ** Shapes through single layers *)

Lemma conv2d_shape_ok (c : Conv2d) (n ch h w : Z) :
  ch = in_channels c ->
  dilation c * (fst (kernel_size c) - 1) + 1 <= h + 2 * conv_padding c ->
  dilation c * (snd (kernel_size c) - 1) + 1 <= w + 2 * conv_padding c ->
  conv2d_shape c [n; ch; h; w]
  = Ok [n; out_channels c;
        window_out h (fst (kernel_size c)) (conv_stride c) (conv_padding c) (dilation c);
        window_out w (snd (kernel_size c)) (conv_stride c) (conv_padding c) (dilation c)].
Proof.
  intros -> Hh Hw. unfold conv2d_shape. rewrite Z.eqb_refl. simpl negb. cbv iota.
  destruct (Z.ltb_spec (h + 2 * conv_padding c)
              (dilation c * (fst (kernel_size c) - 1) + 1)); [lia|].
  destruct (Z.ltb_spec (w + 2 * conv_padding c)
              (dilation c * (snd (kernel_size c) - 1) + 1)); [lia|].
  reflexivity.
Qed.

Lemma conv2d_shape_channels (c : Conv2d) (n ch h w : Z) :
  ch <> in_channels c ->
  conv2d_shape c [n; ch; h; w]
  = Raise (RuntimeError "expected input to have in_channels channels").
Proof.
  intros Hne. unfold conv2d_shape.
  destruct (Z.eqb_spec ch (in_channels c)); [contradiction | reflexivity].
Qed.

Lemma batch_norm_shape_ok (b : BatchNorm2d) (n ch h w : Z) :
  ch = num_features b -> several n h w ->
  batch_norm_shape b [n; ch; h; w] = Ok [n; ch; h; w].
Proof.
  intros -> Hs. unfold batch_norm_shape. rewrite Z.eqb_refl. simpl negb. cbv iota.
  destruct (Z.eqb_spec (h * w) 1) as [E|E]; [|reflexivity].
  destruct (Z.eqb_spec n 1) as [E'|E']; [|reflexivity].
  destruct Hs; contradiction.
Qed.

Lemma iadd_shape_same (x : shape) : iadd_shape x x = Ok x.
Proof. unfold iadd_shape. now rewrite expandable_refl. Qed.

Lemma permute_nhwc (n c h w : Z) :
  permute_shape [0; 2; 3; 1]%nat [n; c; h; w] = Ok [n; h; w; c].
Proof. reflexivity. Qed.

Lemma window_3_1 (h s : Z) : window_out h 3 s 1 1 = reduced s h.
Proof. unfold window_out, reduced. do 2 f_equal. lia. Qed.

Lemma window_1_0 (h s : Z) : window_out h 1 s 0 1 = reduced s h.
Proof. unfold window_out, reduced. do 2 f_equal. lia. Qed.

Lemma window_7_3 (h s : Z) : window_out h 7 s 3 1 = reduced s h.
Proof. unfold window_out, reduced. do 2 f_equal. lia. Qed.

Lemma window_3_2_2 (h s : Z) : window_out h 3 s 2 2 = reduced s h.
Proof. unfold window_out, reduced. do 2 f_equal. lia. Qed.

Lemma reduced_1 (h : Z) : reduced 1 h = h.
Proof. unfold reduced. rewrite Z.div_1_r. lia. Qed.

Lemma reduced_pos (s h : Z) : 1 <= s -> 1 <= h -> 1 <= reduced s h.
Proof.
  intros Hs Hh. unfold reduced.
  assert (0 <= (h - 1) / s) by (apply Z.div_pos; lia). lia.
Qed.

Lemma reduced_le (s h : Z) : 1 <= s -> 1 <= h -> reduced s h <= h.
Proof.
  intros Hs Hh. unfold reduced.
  assert ((h - 1) / s <= h - 1) by (apply Z.div_le_upper_bound; nia). lia.
Qed.

Lemma reduced_reduced (s t h : Z) :
  1 <= s -> 1 <= t -> reduced t (reduced s h) = reduced (s * t) h.
Proof.
  intros Hs Ht. unfold reduced.
  replace ((h - 1) / s + 1 - 1) with ((h - 1) / s) by lia.
  rewrite Z.div_div by lia. reflexivity.
Qed.

Lemma several_reduced (s t n h w : Z) :
  1 <= s -> 1 <= t -> 1 <= h -> 1 <= w ->
  several n (reduced s h) (reduced t w) -> several n h w.
Proof.
  intros Hs Ht Hh Hw [H|H]; [left | now right].
  pose proof (reduced_le s h Hs Hh). pose proof (reduced_le t w Ht Hw).
  pose proof (reduced_pos s h Hs Hh). pose proof (reduced_pos t w Ht Hw).
  intros E. apply H. nia.
Qed.

(** One operation of a forward recipe, on a shape it accepts. *)
Ltac shape_step :=
  rewrite ?bind_Ok;
  cbn [conv2d batch_norm relu iadd sigmoid max_pool2d shape_ops];
  first
    [ rewrite conv2d_shape_ok by (cbn; first [reflexivity | lia])
    | rewrite batch_norm_shape_ok by (cbn; first [reflexivity | lia | assumption])
    | rewrite iadd_shape_same ];
  rewrite ?bind_Ok;
  cbn [in_channels out_channels kernel_size conv_stride conv_padding dilation
       num_features nn_Conv2d nn_BatchNorm2d conv3x3 init_conv init_bn fst snd];
  rewrite ?window_3_1, ?window_1_0, ?window_7_3, ?window_3_2_2, ?reduced_1.

(** ** Shapes through blocks and stages *)

Lemma residual_shape (block : BlockClass) (planes stride inplanes n h w : Z) :
  1 <= stride -> 1 <= h -> 1 <= w ->
  several n (reduced stride h) (reduced stride w) ->
  residual_of (T := shape) (stage_downsample block planes stride inplanes) [n; inplanes; h; w]
  = Ok [n; planes * expansion block; reduced stride h; reduced stride w].
Proof.
  intros Hs Hh Hw Hsev. unfold stage_downsample.
  destruct (negb (stride =? 1) || negb (inplanes =? planes * expansion block)) eqn:E.
  - unfold residual_of, seq_forward, apply_layer.
    shape_step. shape_step. reflexivity.
  - apply orb_false_elim in E as [E1 E2].
    apply negb_false_iff, Z.eqb_eq in E1, E2. subst stride inplanes.
    rewrite !reduced_1. reflexivity.
Qed.

Lemma block_shape (block : BlockClass) (planes stride inplanes n h w : Z) :
  1 <= stride -> 1 <= h -> 1 <= w ->
  several n (reduced stride h) (reduced stride w) ->
  block_forward (T := shape)
    (block_init block inplanes planes stride
       (stage_downsample block planes stride inplanes))
    [n; inplanes; h; w]
  = Ok [n; planes * expansion block; reduced stride h; reduced stride w].
Proof.
  intros Hs Hh Hw Hsev.
  pose proof (reduced_pos stride h Hs Hh) as Hh'.
  pose proof (reduced_pos stride w Hs Hw) as Hw'.
  pose proof (several_reduced stride stride n h w Hs Hs Hh Hw Hsev) as Hsev0.
  pose proof (residual_shape block planes stride inplanes n h w Hs Hh Hw Hsev) as Hres.
  destruct block; simpl block_init; unfold block_forward.
  - unfold BasicBlock_forward, BasicBlock_init.
    cbn [bb_conv1 bb_bn1 bb_conv2 bb_bn2 bb_downsample].
    shape_step. shape_step. shape_step. shape_step.
    rewrite Hres, bind_Ok. simpl expansion. rewrite Z.mul_1_r.
    shape_step. reflexivity.
  - unfold Bottleneck_forward, Bottleneck_init.
    cbn [bt_conv1 bt_bn1 bt_conv2 bt_bn2 bt_conv3 bt_bn3 bt_downsample].
    shape_step. shape_step. shape_step. shape_step. shape_step. shape_step.
    rewrite Hres, bind_Ok. simpl expansion.
    shape_step. reflexivity.
Qed.

Lemma stage_downsample_later (block : BlockClass) (planes : Z) :
  stage_downsample block planes 1 (planes * expansion block) = None.
Proof. unfold stage_downsample. rewrite !Z.eqb_refl. reflexivity. Qed.

(** X1: a stage built by [_make_layer], whatever its block class, width,
    block count and stride (at least 1), takes an input of [inplanes]
    channels and extents [h], [w] (at least 1) to
    [planes * expansion] channels and extents [ceil (h / stride)],
    [ceil (w / stride)], as long as batch normalisation sees more
    than one value per channel at the output extents. *)
Theorem make_layer_shape (block : BlockClass)
    (planes blocks stride inplanes n h w : Z) :
  1 <= stride -> 1 <= h -> 1 <= w ->
  several n (reduced stride h) (reduced stride w) ->
  stage_forward (T := shape) (fst (_make_layer block planes blocks stride inplanes))
    [n; inplanes; h; w]
  = Ok [n; planes * expansion block; reduced stride h; reduced stride w].
Proof.
  intros Hs Hh Hw Hsev. rewrite make_layer_eq. simpl fst.
  apply stage_forward_cons_repeat.
  - exact (block_shape block planes stride inplanes n h w Hs Hh Hw Hsev).
  - pose proof (block_shape block planes 1 (planes * expansion block) n
                  (reduced stride h) (reduced stride w)) as Hb.
    rewrite stage_downsample_later, !reduced_1 in Hb.
    apply Hb; [lia | now apply reduced_pos.. | assumption].
Qed.

(** Stage 2 of the 50-layer network on the shape stage 1 hands it. *)
Lemma make_layer_shape_witness :
  several 1 (reduced 2 112) (reduced 2 112)
  /\ stage_forward (T := shape) (fst (_make_layer Bottleneck 128 4 2 256)) [1; 256; 112; 112]
     = Ok [1; 512; 56; 56].
Proof.
  assert (H : several 1 (reduced 2 112) (reduced 2 112))
    by (left; intros E; vm_compute in E; discriminate E).
  split; [exact H|].
  apply (make_layer_shape Bottleneck 128 4 2 256 1 112 112); [lia | lia | lia | exact H].
Defined.

(** ** Shapes through the head and the whole network *)

Lemma max_pool2d_shape_stem (n c h w : Z) :
  1 <= h -> 1 <= w ->
  max_pool2d_shape (mkMaxPool2d 3 2 1) [n; c; h; w]
  = Ok [n; c; reduced 2 h; reduced 2 w].
Proof.
  intros Hh Hw. unfold max_pool2d_shape. cbn [pool_kernel pool_padding pool_stride].
  change (3 <? 2 * 1) with false. cbv iota.
  destruct (Z.ltb_spec (h + 2 * 1) 3); [lia|].
  destruct (Z.ltb_spec (w + 2 * 1) 3); [lia|].
  simpl orb. cbv iota. rewrite !window_3_1. reflexivity.
Qed.

(** X2: a [DetNetBottleneck], whatever its block type, takes an input of
    [in_planes] channels and extents [h], [w] (at least 1) to [planes]
    channels and extents [ceil (h / stride)], [ceil (w / stride)]: at
    stride 1 the dilated convolution keeps the resolution. *)
Theorem detnet_block_shape (in_planes planes stride : Z) (block_type : string) (n h w : Z) :
  1 <= stride -> 1 <= h -> 1 <= w ->
  several n (reduced stride h) (reduced stride w) ->
  detnet_forward (T := shape) (DetNetBottleneck_init in_planes planes stride block_type)
    [n; in_planes; h; w]
  = Ok [n; planes; reduced stride h; reduced stride w].
Proof.
  intros Hs Hh Hw Hsev.
  pose proof (reduced_pos stride h Hs Hh) as Hh'.
  pose proof (reduced_pos stride w Hs Hw) as Hw'.
  pose proof (several_reduced stride stride n h w Hs Hs Hh Hw Hsev) as Hsev0.
  unfold detnet_forward, detnet_branch, DetNetBottleneck_init, detnet_expansion.
  cbn [d_conv1 d_bn1 d_conv2 d_bn2 d_conv3 d_bn3 d_downsample].
  rewrite !Z.mul_1_l.
  shape_step. shape_step. shape_step. shape_step. shape_step. shape_step.
  destruct (detnet_adjusts in_planes planes stride block_type) eqn:E.
  - unfold seq_forward, apply_layer.
    shape_step. shape_step. shape_step. reflexivity.
  - assert (Hno : ~ (stride <> 1 \/ in_planes <> detnet_expansion * planes
                     \/ block_type = "B"%string)).
    { intros H. apply detnet_adjusts_spec in H. congruence. }
    assert (stride = 1) as -> by (destruct (decide (stride = 1)); tauto).
    assert (in_planes = planes) as ->.
    { destruct (decide (in_planes = detnet_expansion * planes)) as [->|]; [|tauto].
      unfold detnet_expansion. lia. }
    rewrite !reduced_1. simpl seq_forward. rewrite bind_Ok.
    shape_step. reflexivity.
Qed.


(** A type-"A" block between equal widths, and a type-"B" block that
    narrows 2048 channels to 256. *)
Lemma detnet_block_shape_witness :
  several 10 (reduced 1 14) (reduced 1 14)
  /\ detnet_forward (T := shape) (DetNetBottleneck_init 2048 256 1 "B") [10; 2048; 14; 14]
     = Ok [10; 256; 14; 14].
Proof.
  assert (H : several 10 (reduced 1 14) (reduced 1 14)) by (right; discriminate).
  split; [exact H|].
  apply (detnet_block_shape 2048 256 1 "B" 10 14 14); [lia | lia | lia | exact H].
Defined.

(** X3: the head [_make_detnet_layer] builds takes any number of
    incoming channels to 256 and keeps both extents. *)
Theorem make_detnet_layer_shape (in_channels n h w : Z) :
  1 <= h -> 1 <= w -> several n h w ->
  head_forward (T := shape) (_make_detnet_layer in_channels) [n; in_channels; h; w]
  = Ok [n; 256; h; w].
Proof.
  intros Hh Hw Hsev.
  assert (Hsev1 : several n (reduced 1 h) (reduced 1 w)) by now rewrite !reduced_1.
  unfold _make_detnet_layer, head_forward.
  pose proof (detnet_block_shape in_channels 256 1 "B" n h w) as H1.
  pose proof (detnet_block_shape 256 256 1 "A" n h w) as H2.
  rewrite !reduced_1 in H1, H2.
  rewrite H1, bind_Ok, H2, bind_Ok, H2 by (assumption || lia).
  reflexivity.
Qed.


Lemma make_detnet_layer_shape_witness :
  several 1 7 9
  /\ head_forward (T := shape) (_make_detnet_layer 512) [1; 512; 7; 9]
     = Ok [1; 256; 7; 9].
Proof.
  assert (H : several 1 7 9) by (left; discriminate).
  split; [exact H|].
  apply (make_detnet_layer_shape 512 1 7 9); [lia | lia | exact H].
Defined.

(** Shapes do not depend on how the parameters are filled. *)
Lemma apply_layer_init (l : Layer) (x : shape) :
  apply_layer (layer_update init_conv init_bn l) x = apply_layer l x.
Proof. destruct l; reflexivity. Qed.

Lemma seq_forward_init (s : Sequential) (x : shape) :
  seq_forward (seq_update init_conv init_bn s) x = seq_forward s x.
Proof.
  revert x. induction s as [|l s IH]; intros x; [reflexivity|].
  cbn [seq_update map seq_forward]. rewrite apply_layer_init.
  destruct (apply_layer l x); [rewrite !bind_Ok; apply IH | reflexivity].
Qed.

Lemma residual_of_init (d : option Sequential) (x : shape) :
  residual_of (option_map (seq_update init_conv init_bn) d) x = residual_of d x.
Proof. destruct d; [apply seq_forward_init | reflexivity]. Qed.

Lemma block_forward_init (b : Block) (x : shape) :
  block_forward (block_update init_conv init_bn b) x = block_forward b x.
Proof.
  destruct b as [b|b]; simpl.
  - unfold BasicBlock_forward. cbn [bb_conv1 bb_bn1 bb_conv2 bb_bn2 bb_downsample].
    rewrite residual_of_init. reflexivity.
  - unfold Bottleneck_forward.
    cbn [bt_conv1 bt_bn1 bt_conv2 bt_bn2 bt_conv3 bt_bn3 bt_downsample].
    rewrite residual_of_init. reflexivity.
Qed.

Lemma stage_forward_init (stage : list Block) (x : shape) :
  stage_forward (map (block_update init_conv init_bn) stage) x = stage_forward stage x.
Proof.
  revert x. induction stage as [|b stage IH]; intros x; [reflexivity|].
  simpl. rewrite block_forward_init.
  destruct (block_forward b x); simpl; auto.
Qed.

Lemma detnet_forward_init (b : DetNetBottleneck) (x : shape) :
  detnet_forward (detnet_update init_conv init_bn b) x = detnet_forward b x.
Proof.
  unfold detnet_forward, detnet_update. cbn [d_downsample].
  rewrite seq_forward_init. reflexivity.
Qed.

Lemma head_forward_init (stage : list DetNetBottleneck) (x : shape) :
  head_forward (map (detnet_update init_conv init_bn) stage) x = head_forward stage x.
Proof.
  revert x. induction stage as [|b stage IH]; intros x; [reflexivity|].
  simpl. rewrite detnet_forward_init.
  destruct (detnet_forward b x); simpl; auto.
Qed.

Lemma forward_init (net : ResNet) (x : shape) :
  forward (ResNet_update init_conv init_bn net) x = forward net x.
Proof.
  unfold forward. cbn [conv1 bn1 maxpool layer1 layer2 layer3 layer4 layer5 conv_end bn_end ResNet_update].
  change (conv2d (init_conv (conv1 net)) x) with (conv2d (conv1 net) x).
  destruct (conv2d (conv1 net) x) as [x1|]; [|reflexivity]. rewrite !bind_Ok.
  change (batch_norm (init_bn (bn1 net)) x1) with (batch_norm (bn1 net) x1).
  destruct (batch_norm (bn1 net) x1) as [x2|]; [|reflexivity]. rewrite !bind_Ok.
  destruct (max_pool2d (maxpool net) (relu x2)) as [x3|]; [|reflexivity]. rewrite !bind_Ok.
  rewrite !stage_forward_init.
  destruct (stage_forward (layer1 net) x3) as [x4|]; [|reflexivity]. rewrite !bind_Ok.
  rewrite !stage_forward_init.
  destruct (stage_forward (layer2 net) x4) as [x5|]; [|reflexivity]. rewrite !bind_Ok.
  rewrite !stage_forward_init.
  destruct (stage_forward (layer3 net) x5) as [x6|]; [|reflexivity]. rewrite !bind_Ok.
  rewrite !stage_forward_init.
  destruct (stage_forward (layer4 net) x6) as [x7|]; [|reflexivity]. rewrite !bind_Ok.
  rewrite !head_forward_init.
  destruct (head_forward (layer5 net) x7) as [x8|]; [|reflexivity]. rewrite !bind_Ok.
  reflexivity.
Qed.

Lemma reduced_32 (h : Z) :
  reduced 2 (reduced 2 (reduced 2 (reduced 2 (reduced 2 h)))) = reduced 32 h.
Proof. rewrite !reduced_reduced by lia. reflexivity. Qed.

Section AnySize.
Variables (block : BlockClass) (n0 n1 n2 n3 n4 : Z).
Variables (n h w : Z).
Hypothesis Hh : 1 <= h.
Hypothesis Hw : 1 <= w.
Hypothesis Hsev : several n (reduced 32 h) (reduced 32 w).

Lemma backbone_shape :
  backbone (T := shape) (ResNet_layout block n0 n1 n2 n3 n4) [n; 3; h; w]
  = Ok [n; 512 * expansion block; reduced 32 h; reduced 32 w]
  /\ 1 <= reduced 32 h /\ 1 <= reduced 32 w.
Proof.
  rewrite <- !reduced_32 in *.
  set (h2 := reduced 2 h) in *. set (w2 := reduced 2 w) in *.
  set (h4 := reduced 2 h2) in *. set (w4 := reduced 2 w2) in *.
  set (h8 := reduced 2 h4) in *. set (w8 := reduced 2 w4) in *.
  set (h16 := reduced 2 h8) in *. set (w16 := reduced 2 w8) in *.
  assert (P2 : 1 <= h2 /\ 1 <= w2) by (split; apply reduced_pos; lia).
  assert (P4 : 1 <= h4 /\ 1 <= w4) by (split; apply reduced_pos; lia).
  assert (P8 : 1 <= h8 /\ 1 <= w8) by (split; apply reduced_pos; lia).
  assert (P16 : 1 <= h16 /\ 1 <= w16) by (split; apply reduced_pos; lia).
  assert (S16 : several n h16 w16) by (apply (several_reduced 2 2); tauto || lia).
  assert (S8 : several n h8 w8) by (apply (several_reduced 2 2); tauto || lia).
  assert (S4 : several n h4 w4) by (apply (several_reduced 2 2); tauto || lia).
  assert (S2 : several n h2 w2) by (apply (several_reduced 2 2); tauto || lia).
  split; [|split; apply reduced_pos; lia].
  unfold backbone, ResNet_layout. cbn [conv1 bn1 maxpool layer1 layer2 layer3 layer4].
  shape_step. fold h2 w2. shape_step.
  cbn [max_pool2d shape_ops relu].
  rewrite max_pool2d_shape_stem, bind_Ok by tauto. fold h4 w4.
  rewrite (make_layer_shape block 64 n0 1 64 n h4 w4), bind_Ok
    by (rewrite ?reduced_1; tauto || lia).
  rewrite !reduced_1.
  rewrite (make_layer_shape block 128 n1 2 (64 * expansion block) n h4 w4), bind_Ok
    by (tauto || lia).
  fold h8 w8.
  rewrite (make_layer_shape block 256 n2 2 (128 * expansion block) n h8 w8), bind_Ok
    by (tauto || lia).
  fold h16 w16.
  rewrite (make_layer_shape block 512 n3 2 (256 * expansion block) n h16 w16)
    by (tauto || lia).
  reflexivity.
Qed.
End AnySize.

Lemma ResNet_init_built (block : BlockClass) (n0 n1 n2 n3 n4 : Z) (more : list Z) :
  ResNet_init block (n0 :: n1 :: n2 :: n3 :: n4 :: more)
  = Ok (ResNet_update init_conv init_bn (ResNet_layout block n0 n1 n2 n3 n4)).
Proof. unfold ResNet_init. rewrite ResNet_build_eq. reflexivity. Qed.

Lemma forward_split {T} `{TensorOps T} (net : ResNet) (x : T) :
  forward net x =
  (x ← backbone net x;
   x ← head_forward (layer5 net) x;
   x ← conv2d (conv_end net) x;
   x ← batch_norm (bn_end net) x;
   permute [0; 2; 3; 1]%nat (sigmoid x)).
Proof.
  unfold forward, backbone.
  repeat match goal with
         | |- (?r ≫= _) = _ => destruct r; [rewrite ?bind_Ok | reflexivity]
         end.
  reflexivity.
Qed.

(** X4: for any four block counts, with the head told the channel count
    stage 4 produces, a 3-channel input of extents [h], [w] (at least
    1) leaves the network as a grid of [ceil (h / 32)] by
    [ceil (w / 32)] cells of 10 values, channel axis last, as long as
    batch normalisation sees more than one value per channel on that
    grid. *)
Theorem forward_any_size (block : BlockClass) (n0 n1 n2 n3 : Z) (more : list Z)
    (n h w : Z) (net : ResNet) :
  1 <= h -> 1 <= w -> several n (reduced 32 h) (reduced 32 w) ->
  ResNet_init block (n0 :: n1 :: n2 :: n3 :: 512 * expansion block :: more) = Ok net ->
  forward net [n; 3; h; w] = Ok [n; reduced 32 h; reduced 32 w; 10].
Proof.
  intros Hh Hw Hsev Hnet. rewrite ResNet_init_built in Hnet. injection Hnet as <-.
  rewrite forward_init, forward_split.
  destruct (backbone_shape block n0 n1 n2 n3 (512 * expansion block) n h w Hh Hw Hsev)
    as (-> & Hh' & Hw').
  rewrite bind_Ok. unfold ResNet_layout. cbn [layer5 conv_end bn_end].
  rewrite make_detnet_layer_shape, bind_Ok by assumption.
  shape_step. shape_step.
  cbn [sigmoid permute shape_ops]. apply permute_nhwc.
Qed.

(** The 18-layer network on a batch of ten 224 by 320 images. *)
Lemma forward_any_size_witness :
  several 10 (reduced 32 224) (reduced 32 320)
  /\ ResNet_init BasicBlock [2; 2; 2; 2; 512]
     = Ok (ResNet_update init_conv init_bn (ResNet_layout BasicBlock 2 2 2 2 512))
  /\ forward (T := shape)
       (ResNet_update init_conv init_bn (ResNet_layout BasicBlock 2 2 2 2 512))
       [10; 3; 224; 320]
     = Ok [10; 7; 10; 10].
Proof.
  assert (H : several 10 (reduced 32 224) (reduced 32 320)) by (right; discriminate).
  assert (Hnet : ResNet_init BasicBlock [2; 2; 2; 2; 512]
                 = Ok (ResNet_update init_conv init_bn
                         (ResNet_layout BasicBlock 2 2 2 2 512)))
    by apply ResNet_init_built.
  split; [exact H|]. split; [exact Hnet|].
  apply (forward_any_size BasicBlock 2 2 2 2 [] 10 224 320 _ ltac:(lia) ltac:(lia) H Hnet).
Defined.



(** X6: whatever the block class and the numbers in [layers], an input
    whose channel count is not 3 makes [forward] raise at the stem
    convolution. *)
Theorem forward_wrong_channels_raises (block : BlockClass) (layers : list Z)
    (net : ResNet) (n c h w : Z) :
  ResNet_init block layers = Ok net -> c <> 3 ->
  forward net [n; c; h; w]
  = Raise (RuntimeError "expected input to have in_channels channels").
Proof.
  intros Hnet Hc.
  assert (Hlen : (5 <= length layers)%nat).
  { destruct (le_lt_dec 5 (length layers)) as [|Hlt]; [assumption|].
    exfalso. revert Hnet.
    do 5 (destruct layers as [|? layers]; [discriminate|]).
    simpl in Hlt. lia. }
  do 5 (destruct layers as [|? layers]; [simpl in Hlen; lia|]).
  rewrite ResNet_init_built in Hnet. injection Hnet as <-.
  rewrite forward_init, forward_split. unfold backbone, ResNet_layout.
  cbn [conv1 conv2d shape_ops].
  rewrite conv2d_shape_channels by (cbn; assumption). reflexivity.
Qed.

(** A grey-level batch for the 34-layer network. *)
Lemma forward_wrong_channels_raises_witness :
  ResNet_init BasicBlock [3; 4; 6; 3; 512]
  = Ok (ResNet_update init_conv init_bn (ResNet_layout BasicBlock 3 4 6 3 512))
  /\ 1 <> 3
  /\ forward (T := shape)
       (ResNet_update init_conv init_bn (ResNet_layout BasicBlock 3 4 6 3 512))
       [2; 1; 448; 448]
     = Raise (RuntimeError "expected input to have in_channels channels").
Proof.
  assert (Hnet : ResNet_init BasicBlock [3; 4; 6; 3; 512]
                 = Ok (ResNet_update init_conv init_bn
                         (ResNet_layout BasicBlock 3 4 6 3 512)))
    by apply ResNet_init_built.
  assert (Hc : 1 <> 3) by discriminate.
  split; [exact Hnet|]. split; [exact Hc|].
  exact (forward_wrong_channels_raises BasicBlock [3; 4; 6; 3; 512] _ 2 1 448 448 Hnet Hc).
Defined.

(** ** Blocks built without the path they need *)

Lemma reduced_lt (s w : Z) : 2 <= s -> 2 <= w -> reduced s w < w.
Proof.
  intros Hs Hw. unfold reduced.
  assert ((w - 1) / s < w - 1) by (apply Z.div_lt; lia). lia.
Qed.

Lemma iadd_shape_narrower (n c c' h h' w w' : Z) :
  w <> w' -> w <> 1 ->
  iadd_shape [n; c'; h'; w'] [n; c; h; w]
  = Raise (RuntimeError "the size of tensor a must match the size of tensor b").
Proof.
  intros H1 H2. unfold iadd_shape, expandable. simpl rev. simpl expandable_rev.
  unfold same_extent at 1.
  destruct (Z.eqb_spec w w'); [contradiction|].
  destruct (Z.eqb_spec w 1); [contradiction|]. reflexivity.
Qed.

(** X7: a [BasicBlock] or [Bottleneck] built with a stride of 2 or more
    and no [downsample] raises at [out += residual] on every input
    wider than one position: the branch has narrowed, the input has
    not. *)
Theorem block_without_downsample_raises (block : BlockClass)
    (inplanes planes stride n h w : Z) :
  2 <= stride -> 1 <= h -> 2 <= w ->
  several n (reduced stride h) (reduced stride w) ->
  block_forward (T := shape) (block_init block inplanes planes stride None)
    [n; inplanes; h; w]
  = Raise (RuntimeError "the size of tensor a must match the size of tensor b").
Proof.
  intros Hs Hh Hw Hsev.
  assert (Hs1 : 1 <= stride) by lia. assert (Hw1 : 1 <= w) by lia.
  pose proof (reduced_pos stride h Hs1 Hh) as Hh'.
  pose proof (reduced_pos stride w Hs1 Hw1) as Hw'.
  pose proof (several_reduced stride stride n h w Hs1 Hs1 Hh Hw1 Hsev) as Hsev0.
  pose proof (reduced_lt stride w Hs Hw) as Hlt.
  destruct block; simpl block_init; unfold block_forward.
  - unfold BasicBlock_forward, BasicBlock_init.
    cbn [bb_conv1 bb_bn1 bb_conv2 bb_bn2 bb_downsample residual_of].
    shape_step. shape_step. shape_step. shape_step.
    rewrite ?bind_Ok. cbn [iadd shape_ops].
    rewrite iadd_shape_narrower by lia. reflexivity.
  - unfold Bottleneck_forward, Bottleneck_init.
    cbn [bt_conv1 bt_bn1 bt_conv2 bt_bn2 bt_conv3 bt_bn3 bt_downsample residual_of].
    shape_step. shape_step. shape_step. shape_step. shape_step. shape_step.
    rewrite ?bind_Ok. cbn [iadd shape_ops].
    rewrite iadd_shape_narrower by lia. reflexivity.
Qed.


Lemma block_without_downsample_raises_witness :
  several 4 (reduced 2 56) (reduced 2 56)
  /\ block_forward (T := shape) (block_init BasicBlock 64 64 2 None) [4; 64; 56; 56]
     = Raise (RuntimeError "the size of tensor a must match the size of tensor b").
Proof.
  assert (H : several 4 (reduced 2 56) (reduced 2 56)) by (right; discriminate).
  split; [exact H|].
  apply (block_without_downsample_raises BasicBlock 64 64 2 4 56 56); [lia | lia | lia | exact H].
Defined.

Lemma iadd_shape_one_channel (n c h w : Z) :
  iadd_shape [n; c; h; w] [n; 1; h; w] = Ok [n; c; h; w].
Proof.
  unfold iadd_shape, expandable. simpl rev. simpl expandable_rev.
  rewrite !same_extent_refl. unfold same_extent.
  rewrite Z.eqb_refl, orb_true_r. reflexivity.
Qed.

(** X13: a [BasicBlock] or [Bottleneck] of stride 1 built for a single
    input channel and no [downsample] raises nothing, whatever its
    width: the addition broadcasts the one-channel input over the
    [planes * expansion] channels of the branch. *)
Theorem block_one_channel_broadcasts (block : BlockClass) (planes n h w : Z) :
  1 <= h -> 1 <= w -> several n h w ->
  block_forward (T := shape) (block_init block 1 planes 1 None) [n; 1; h; w]
  = Ok [n; planes * expansion block; h; w].
Proof.
  intros Hh Hw Hsev.
  destruct block; simpl block_init; unfold block_forward.
  - unfold BasicBlock_forward, BasicBlock_init.
    cbn [bb_conv1 bb_bn1 bb_conv2 bb_bn2 bb_downsample residual_of].
    shape_step. shape_step. shape_step. shape_step.
    rewrite ?bind_Ok. cbn [iadd shape_ops relu].
    rewrite iadd_shape_one_channel, bind_Ok. simpl expansion.
    now rewrite Z.mul_1_r.
  - unfold Bottleneck_forward, Bottleneck_init.
    cbn [bt_conv1 bt_bn1 bt_conv2 bt_bn2 bt_conv3 bt_bn3 bt_downsample residual_of].
    shape_step. shape_step. shape_step. shape_step. shape_step. shape_step.
    rewrite ?bind_Ok. cbn [iadd shape_ops relu].
    rewrite iadd_shape_one_channel, bind_Ok. reflexivity.
Qed.

Lemma block_one_channel_broadcasts_witness :
  several 2 28 28
  /\ block_forward (T := shape) (block_init Bottleneck 1 64 1 None) [2; 1; 28; 28]
     = Ok [2; 256; 28; 28].
Proof.
  assert (H : several 2 28 28) by (right; discriminate).
  split; [exact H|].
  apply (block_one_channel_broadcasts Bottleneck 64 2 28 28); [lia | lia | exact H].
Defined.

(** ** The list of stage sizes *)

(** X8: the constructor reads exactly [layers[0]] to [layers[4]]: it
    raises [IndexError] when, and only when, the list has fewer than
    five entries, and entries past the fifth change nothing. *)
Theorem ResNet_init_needs_five (block : BlockClass) (layers : list Z) :
  (ResNet_init block layers = Raise IndexError <-> (length layers < 5)%nat)
  /\ ResNet_init block layers = ResNet_init block (take 5 layers).
Proof.
  split.
  - split.
    + intros H. destruct (le_lt_dec 5 (length layers)) as [Hge|]; [|assumption].
      destruct (ResNet_build_ok block layers Hge) as [net Hnet].
      unfold ResNet_init in H. rewrite Hnet in H. discriminate.
    + intros Hlt.
      do 5 (destruct layers as [|? layers]; [reflexivity|]).
      simpl in Hlt. lia.
  - do 5 (destruct layers as [|? layers]; [reflexivity|]).
    reflexivity.
Qed.

(** ** More on the weight importer *)

Section ImporterMore.
Context {elt : Type}.
Implicit Types (t v dst : Tensor elt) (net : gmap string (Tensor elt)).
Implicit Types (items : list (string * Tensor elt)) (name : string).

(** X9: importing a file is importing its first entries, then, if that
    raised nothing, the rest into the parameters as they then are; if
    the first part raised, the rest is not looked at. *)
Theorem import_in_two_parts items1 items2 net :
  copy_entries (items1 ++ items2) net =
  match copy_entries items1 net with
  | (net1, Ok _) => copy_entries items2 net1
  | (net1, Raise e) => (net1, Raise e)
  end.
Proof.
  revert net. induction items1 as [|[n p] rest IH]; intros net; simpl; [reflexivity|].
  destruct (net !! n) as [t|]; [|apply IH].
  destruct (copy_ t p) as [t'|e]; [apply IH | reflexivity].
Qed.

(** X10: a failed import is not rolled back: when the entries before
    the one that cannot be broadcast import without error, the call
    raises [RuntimeError] and leaves the parameters as those entries
    made them, whatever follows in the file. *)
Theorem import_failure_keeps_earlier items1 items2 net net1 name v dst :
  copy_entries items1 net = (net1, Ok tt) ->
  net1 !! name = Some dst ->
  expandable (t_shape v) (t_shape dst) = false ->
  exists msg,
    copy_entries (items1 ++ (name, v) :: items2) net = (net1, Raise (RuntimeError msg)).
Proof.
  intros H1 Hdst Hno. rewrite import_in_two_parts, H1. simpl.
  rewrite Hdst. unfold copy_. rewrite Hno. eauto.
Qed.

Lemma copy_entries_success_expandable items net name v dst :
  NoDup items.*1 -> snd (copy_entries items net) = Ok tt ->
  (name, v) ∈ items -> net !! name = Some dst ->
  expandable (t_shape v) (t_shape dst) = true.
Proof.
  intros Hnd Hok Hin Hdst.
  pose proof (copy_entries_entry items net name v dst Hnd Hin Hdst) as H.
  destruct (expandable (t_shape v) (t_shape dst)); [reflexivity|].
  destruct H as [[msg Hr] _]. rewrite Hr in Hok. discriminate.
Qed.

(** X11: when the names of a file are distinct and its import succeeds,
    the import of the same entries in any other order succeeds with
    the same parameters. *)
Theorem import_order_irrelevant items items' net net' :
  NoDup items.*1 -> Permutation items items' ->
  copy_entries items net = (net', Ok tt) ->
  copy_entries items' net = (net', Ok tt).
Proof.
  intros Hnd Hperm H.
  assert (Hnd' : NoDup items'.*1).
  { now rewrite <- Hperm. }
  assert (Hok : snd (copy_entries items net) = Ok tt) by now rewrite H.
  assert (Hok' : snd (copy_entries items' net) = Ok tt).
  { apply copy_entries_all_expandable. intros name v dst Hin Hdst.
    apply (copy_entries_success_expandable items net name v dst); try assumption.
    now rewrite Hperm. }
  apply injective_projections; [|exact Hok']. simpl.
  apply map_eq. intros name.
  replace net' with (fst (copy_entries items net)) by now rewrite H.
  destruct (decide (name ∈ items.*1)) as [Hin|Hnin].
  - apply list_elem_of_fmap in Hin as ([name0 v] & -> & Hin). simpl.
    destruct (net !! name0) as [dst|] eqn:Hdst.
    + pose proof (copy_entries_entry items net name0 v dst Hnd Hin Hdst) as E.
      assert (Hin' : (name0, v) ∈ items') by now rewrite <- Hperm.
      pose proof (copy_entries_entry items' net name0 v dst Hnd' Hin' Hdst) as E'.
      rewrite (copy_entries_success_expandable items net name0 v dst) in E, E'
        by assumption.
      now rewrite E, E'.
    + now rewrite !copy_entries_absent.
  - rewrite !copy_entries_untouched; [reflexivity | assumption |].
    intros Hin. apply Hnin. now rewrite Hperm.
Qed.

(** X12: whatever the source name, the source and the outcome,
    [load_my_state_dict] leaves the network with the same parameter
    names and every parameter with the shape it had. *)
Theorem import_keeps_names_and_shapes
    (load_url : string -> result (list (string * Tensor elt)))
    net (parameter_url : string) :
  let net' := fst (load_my_state_dict load_url net parameter_url) in
  dom net' = dom net
  /\ forall name t, net !! name = Some t ->
       exists t', net' !! name = Some t' /\ t_shape t' = t_shape t.
Proof.
  intros net'.
  assert (Hs : same_shapes net net').
  { subst net'. unfold load_my_state_dict.
    destruct (model_urls !! parameter_url); [|now intros k].
    destruct (load_url s); [apply copy_entries_same_shapes | now intros k]. }
  split.
  - apply set_eq. intros k. rewrite !elem_of_dom.
    specialize (Hs k). unfold is_Some.
    destruct (net !! k), (net' !! k); simpl in Hs; try discriminate;
      split; intros [? ?]; eauto; discriminate.
  - intros name t Ht. specialize (Hs name). rewrite Ht in Hs. simpl in Hs.
    destruct (net' !! name) as [t'|]; [|discriminate].
    exists t'. split; [reflexivity|]. simpl in Hs. congruence.
Qed.
End ImporterMore.

(** The scale of [bn1] arrives, then a shift of three values for 64. *)
Lemma import_failure_keeps_earlier_witness :
  copy_entries [("bn1.weight"%string, mkTensor [1] [5])] sample_net
  = (sample_net_scaled, Ok tt)
  /\ exists msg,
       copy_entries
         ([("bn1.weight"%string, mkTensor [1] [5])]
          ++ ("bn1.bias"%string, mkTensor [3] [1; 2; 3]) :: [])
         sample_net
       = (sample_net_scaled, Raise (RuntimeError msg)).
Proof.
  assert (H : copy_entries [("bn1.weight"%string, mkTensor [1] [5])] sample_net
              = (sample_net_scaled, Ok tt)).
  { apply injective_projections; [apply map_eq; intros k|]; vm_compute; reflexivity. }
  split; [exact H|].
  apply (import_failure_keeps_earlier _ [] sample_net sample_net_scaled
           "bn1.bias" (mkTensor [3] [1; 2; 3]) (mkTensor [64] (repeat 0 64)) H);
    vm_compute; reflexivity.
Defined.

Lemma import_order_irrelevant_witness :
  NoDup sample_file.*1
  /\ Permutation sample_file sample_file_swapped
  /\ copy_entries sample_file_swapped sample_net = (sample_net_loaded, Ok tt).
Proof.
  assert (Hnd : NoDup sample_file.*1).
  { apply (bool_decide_unpack _). vm_compute. exact I. }
  assert (Hp : Permutation sample_file sample_file_swapped) by apply perm_swap.
  assert (H : copy_entries sample_file sample_net = (sample_net_loaded, Ok tt)).
  { apply injective_projections; [apply map_eq; intros k|]; vm_compute; reflexivity. }
  split; [exact Hnd|]. split; [exact Hp|].
  exact (import_order_irrelevant sample_file sample_file_swapped sample_net
           sample_net_loaded Hnd Hp H).
Defined.
